(** * RealEstate.apps.core.views: a shallow embedding and its properties

    The request handlers of [RealEstate/apps/core/views.py] are embedded as
    functions over an explicit database state.  Tables are lists of rows in
    storage order, a foreign key is the integer key it stores, a queryset is
    the list of rows it selects, and an exception is a value of [Exn] returned
    in place of a response. *)

From Stdlib Require Import ZArith String List Lia.
From stdpp Require Import base option list gmap strings.

Local Open Scope string_scope.
Local Open Scope list_scope.

(** ** Exceptions, results and statements *)

Inductive Exn : Type :=
| PermissionDenied
| Http404
| DoesNotExist
| MultipleObjectsReturned
| MultiValueDictKeyError
| KeyError
| ValueError
| IntegrityError
| UnboundLocalError
| OverflowError
| Exception (msg : string).

Inductive Outcome (A : Type) : Type :=
| Return (a : A)
| Raise (e : Exn).
Arguments Return {A} a.
Arguments Raise {A} e.

(** The HTTP status the framework answers for an uncaught exception. *)
Definition status_of_exn (e : Exn) : Z :=
  match e with
  | PermissionDenied => 403
  | Http404 => 404
  | _ => 500
  end.

(** A statement over a store [S]: it returns or raises, and leaves the store
    as it was at that point. *)
Definition Stm (S A : Type) : Type := S -> Outcome A * S.

Definition ret {S A : Type} (a : A) : Stm S A := fun s => (Return a, s).
Definition throw {S A : Type} (e : Exn) : Stm S A := fun s => (Raise e, s).
Definition bind {S A B : Type} (m : Stm S A) (k : A -> Stm S B) : Stm S B :=
  fun s =>
    match m s with
    | (Return a, s') => k a s'
    | (Raise e, s') => (Raise e, s')
    end.
Definition lift {S A : Type} (o : Outcome A) : Stm S A := fun s => (o, s).
Definition read {S : Type} : Stm S S := fun s => (Return s, s).
Definition write {S : Type} (s' : S) : Stm S unit := fun _ => (Return tt, s').

Notation "'let*' x ':=' m 'in' k" := (bind m (fun x => k))
  (at level 10, x name, m at level 100, k at level 200).

Definition obind {A B : Type} (o : Outcome A) (k : A -> Outcome B) : Outcome B :=
  match o with
  | Return a => k a
  | Raise e => Raise e
  end.

Notation "'let?' x ':=' o 'in' k" := (obind o (fun x => k))
  (at level 10, x name, o at level 100, k at level 200).

(** ** The models the views import

    Only the columns the views read or write are kept. *)

Record Realtor := { realtor_id : Z; realtor_user : Z }.
Record Couple := { couple_id : Z; couple_realtor : Z }.
Record Homebuyer := { homebuyer_id : Z; homebuyer_user : Z; homebuyer_couple : Z }.
Record House := { house_id : Z; house_couple : Z }.
Record Category := { category_id : Z; category_couple : Z }.
Record Grade := {
  grade_id : Z;
  grade_homebuyer : Z;
  grade_category : Z;
  grade_house : Z;
  grade_score : Z
}.
Record PendingCouple := { pending_couple_id : Z; pending_couple_realtor : Z }.
Record PendingHomebuyer := {
  pending_homebuyer_id : Z;
  pending_homebuyer_email : string;
  pending_homebuyer_pending_couple : Z
}.

Record DB := {
  realtors : list Realtor;
  couples : list Couple;
  homebuyers : list Homebuyer;
  houses : list House;
  categories : list Category;
  grades : list Grade;
  pending_couples : list PendingCouple;
  pending_homebuyers : list PendingHomebuyer
}.

Definition set_grades (db : DB) (gs : list Grade) : DB :=
  {| realtors := realtors db; couples := couples db; homebuyers := homebuyers db;
     houses := houses db; categories := categories db; grades := gs;
     pending_couples := pending_couples db;
     pending_homebuyers := pending_homebuyers db |}.

Definition set_pending_couples (db : DB) (pcs : list PendingCouple) : DB :=
  {| realtors := realtors db; couples := couples db; homebuyers := homebuyers db;
     houses := houses db; categories := categories db; grades := grades db;
     pending_couples := pcs;
     pending_homebuyers := pending_homebuyers db |}.

Definition set_pending_homebuyers (db : DB) (phs : list PendingHomebuyer) : DB :=
  {| realtors := realtors db; couples := couples db; homebuyers := homebuyers db;
     houses := houses db; categories := categories db; grades := grades db;
     pending_couples := pending_couples db;
     pending_homebuyers := phs |}.

(** [User.role_object]: the Homebuyer or the Realtor instance of the user, or
    [None]. *)
Inductive Role : Type :=
| RoleHomebuyer (h : Homebuyer)
| RoleRealtor (r : Realtor).

Definition role_type (role : Role) : string :=
  match role with
  | RoleHomebuyer _ => "Homebuyer"
  | RoleRealtor _ => "Realtor"
  end.

(** Modelled from the spec: [User._ALL_TYPES_ALLOWED], declared in the models
    module; [BaseView]'s docstring says that by default both Homebuyers and
    Realtors are allowed to see all views. *)
Definition _ALL_TYPES_ALLOWED : list string := ["Homebuyer"; "Realtor"].

Record User := {
  is_authenticated : bool;
  user_id : Z;
  role_object : option Role
}.

Inductive Method : Type := GET | POST | OtherMethod.

Record Request := {
  request_user : User;
  request_method : Method;
  request_is_ajax : bool;
  request_POST : gmap string string
}.

(** ** Querysets *)

(** [QuerySet.get]: the single row, or [DoesNotExist], or
    [MultipleObjectsReturned]. *)
Definition qs_get {A : Type} (qs : list A) : Outcome A :=
  match qs with
  | [] => Raise DoesNotExist
  | [x] => Return x
  | _ :: _ :: _ => Raise MultipleObjectsReturned
  end.

(** [get_object_or_404] turns [DoesNotExist] alone into [Http404]. *)
Definition get_object_or_404 {A : Type} (qs : list A) : Outcome A :=
  match qs_get qs with
  | Raise DoesNotExist => Raise Http404
  | o => o
  end.

(** [QuerySet.first]. *)
Definition qs_first {A : Type} (qs : list A) : option A := head qs.

(** Truth value of an evaluated queryset. *)
Definition truthy {A : Type} (qs : list A) : bool :=
  match qs with
  | [] => false
  | _ :: _ => true
  end.

(** [Couple.objects.filter(homebuyer__user=user)]: the join of couples with
    the homebuyers of that user, one row per matching homebuyer. *)
Definition Couple_filter_homebuyer__user (db : DB) (uid : Z) : list Couple :=
  c ← couples db;
  h ← filter (fun h => homebuyer_couple h = couple_id c ∧ homebuyer_user h = uid)
        (homebuyers db);
  [c].

Definition Realtor_filter_user (db : DB) (uid : Z) : list Realtor :=
  filter (fun r => realtor_user r = uid) (realtors db).

(** A filter whose value is itself a queryset selects the rows whose key is
    the primary key of one of its rows. *)
Definition House_filter_couple (db : DB) (couple : list Couple) : list House :=
  filter (fun h => house_couple h ∈ couple_id <$> couple) (houses db).

Definition Couple_filter_realtor (db : DB) (realtor : list Realtor) : list Couple :=
  filter (fun c => couple_realtor c ∈ realtor_id <$> realtor) (couples db).

Definition PendingCouple_filter_realtor (db : DB) (realtor : list Realtor)
  : list PendingCouple :=
  filter (fun p => pending_couple_realtor p ∈ realtor_id <$> realtor)
    (pending_couples db).

Definition Category_filter_couple (db : DB) (couple : list Couple) : list Category :=
  filter (fun c => category_couple c ∈ couple_id <$> couple) (categories db).

Definition Homebuyer_filter_couple (db : DB) (couple : Couple) : list Homebuyer :=
  filter (fun h => homebuyer_couple h = couple_id couple) (homebuyers db).

Definition PendingHomebuyer_filter_pending_couple (db : DB) (pc : PendingCouple)
  : list PendingHomebuyer :=
  filter (fun h => pending_homebuyer_pending_couple h = pending_couple_id pc)
    (pending_homebuyers db).

Definition House_filter_id (db : DB) (hid : Z) : list House :=
  filter (fun h => house_id h = hid) (houses db).

Definition Category_filter_id (db : DB) (cid : Z) : list Category :=
  filter (fun c => category_id c = cid) (categories db).

Definition Homebuyer_filter_user_id (db : DB) (uid : Z) : list Homebuyer :=
  filter (fun h => homebuyer_user h = uid) (homebuyers db).

(** [Grade.objects.filter(homebuyer=..., category=..., house=...)]. *)
Definition Grade_filter (db : DB) (hb cat house : Z) : list Grade :=
  filter (fun g => grade_homebuyer g = hb ∧ grade_category g = cat ∧ grade_house g = house)
    (grades db).

Definition Grade_filter_house_homebuyer (db : DB) (house hb : Z) : list Grade :=
  filter (fun g => grade_house g = house ∧ grade_homebuyer g = hb) (grades db).

(** The key the database gives a new row: one past the largest in use. *)
Definition next_id (ids : list Z) : Z := (1 + foldr Z.max 0 ids)%Z.

(** ** Python integers as objects

    [is] compares object identity.  The integers of a row fetched from the
    database are created by the interpreter's integer constructor, which hands
    out the one shared object for each value from -5 to 256 and a new object
    for any other value. *)

Inductive PyRef : Type :=
| SmallIntRef (v : Z)
| HeapRef (addr : nat).

#[global] Instance PyRef_eq_dec : EqDecision PyRef.
Proof. solve_decision. Defined.

Record PyInt := { int_value : Z; int_ref : PyRef }.

Definition is_small_int (v : Z) : bool := bool_decide (-5 ≤ v ≤ 256)%Z.

(** The store is the next free address. *)
Definition PyLong_FromLong (v : Z) : Stm nat PyInt :=
  fun next =>
    if is_small_int v
    then (Return {| int_value := v; int_ref := SmallIntRef v |}, next)
    else (Return {| int_value := v; int_ref := HeapRef next |}, S next).

Definition py_is (a b : PyInt) : bool := bool_decide (int_ref a = int_ref b).

(** A [Category] instance built from a row: its [id] attribute is an integer
    object. *)
Record CategoryInstance := { instance_row : Category; instance_id : PyInt }.

Definition Category_from_db (row : Category) : Stm nat CategoryInstance :=
  let* i := PyLong_FromLong (category_id row) in
  ret {| instance_row := row; instance_id := i |}.

Fixpoint from_db_all (rows : list Category) : Stm nat (list CategoryInstance) :=
  match rows with
  | [] => ret []
  | row :: rest =>
      let* c := Category_from_db row in
      let* cs := from_db_all rest in
      ret (c :: cs)
  end.

(** [grade.category]: the related row is fetched by its key with a query of
    its own. *)
Definition Grade_category (db : DB) (grade : Grade) : Stm nat CategoryInstance :=
  let* row := lift (qs_get (Category_filter_id db (grade_category grade))) in
  Category_from_db row.

(** ** Responses *)

Definition CoupleDatum : Type :=
  (Couple + PendingCouple) * (list Homebuyer + list PendingHomebuyer) * bool.

Record ScoreContext := {
  min_score : Z;
  max_score : Z;
  min_choice : string;
  max_choice : string;
  default_score : Z;
  js_scores : gmap Z string
}.

Inductive Context : Type :=
| HomebuyerHomeContext (couple : list Couple) (house : list House)
| RealtorHomeContext (couples : list CoupleDatum) (house : list House)
    (realtor : list Realtor)
| HouseEvalContext (couple : list Couple) (house : House)
    (grades : list (Category * option Z)) (score : ScoreContext).

Inductive Response : Type :=
| render (template_name : string) (context : Context)
| redirect (to : string)
| HttpResponse (content : list (string * string)) (content_type : string)
| HttpResponseNotAllowed.

(** ** The views *)

Section Views.

#[local] Set Default Proof Using "Type".

(** Python's [int] on the text of a form field: the number, or [None] where
    it raises [ValueError]. *)
Variable py_int : string -> option Z.

(** Whether the score column of the database can hold the integer.  For one
    it cannot hold, the write raises (with SQLite, [OverflowError] from the
    adapter) and nothing is stored. *)
Variable Grade_score_storable : Z -> bool.

(** [Grade._meta.get_field('score')]: the choices and the default the models
    module declares for the score field. *)
Variable score_field_choices : list (Z * string).
Variable score_field_default : Z.

(** [InviteHomebuyerForm(request.POST)]: the cleaned pair of emails when the
    form is valid, [None] when it is not. *)
Variable InviteHomebuyerForm_cleaned_data :
  DB -> gmap string string -> option (string * string).

(** The exception, if any, the database raises when the row is inserted. *)
Variable PendingHomebuyer_insert_error : DB -> PendingHomebuyer -> option Exn.

(** [PendingHomebuyer.send_email_invite]: the exception it raises, if any. *)
Variable send_email_invite : PendingHomebuyer -> Request -> option Exn.

(** [django.contrib.auth.views.login], to which [login] delegates. *)
Variable auth_login : Request -> Response.

(** *** login *)

Definition login (request : Request) : Response :=
  if is_authenticated (request_user request) then redirect "home"
  else auth_login request.

(** *** BaseView *)

Definition BaseView__permission_check (db : DB) (request : Request) (role : Role)
  : Outcome bool :=
  Return true.

(** [View.dispatch]: the handler named after the request method;
    [OtherMethod] is a method the views define no handler for. *)
Definition View_dispatch (get post : Stm DB Response) (request : Request)
  : Stm DB Response :=
  match request_method request with
  | GET => get
  | POST => post
  | OtherMethod => ret HttpResponseNotAllowed
  end.

(** [BaseView.dispatch] under [login_required]. *)
Definition BaseView_dispatch (_USER_TYPES_ALLOWED : list string)
    (_permission_check : DB -> Request -> Role -> Outcome bool)
    (get post : Stm DB Response) (request : Request) : Stm DB Response :=
  if negb (is_authenticated (request_user request)) then ret (redirect "login")
  else
    match role_object (request_user request) with
    | Some role =>
        if bool_decide (role_type role ∈ _USER_TYPES_ALLOWED) then
          let* db := read in
          let* allowed := lift (_permission_check db request role) in
          if (allowed : bool) then View_dispatch get post request
          else throw PermissionDenied
        else throw PermissionDenied
    | None => throw PermissionDenied
    end.

(** *** HomeView *)

Definition HomeView__invite_homebuyer (request : Request)
    (pending_couple : PendingCouple) (email : string) : Stm DB unit :=
  let* db := read in
  let homebuyer :=
    {| pending_homebuyer_id := next_id (pending_homebuyer_id <$> pending_homebuyers db);
       pending_homebuyer_email := email;
       pending_homebuyer_pending_couple := pending_couple_id pending_couple |} in
  match PendingHomebuyer_insert_error db homebuyer with
  | Some e => throw e
  | None =>
      let* _ := write (set_pending_homebuyers db (pending_homebuyers db ++ [homebuyer])) in
      match send_email_invite homebuyer request with
      | Some e => throw e
      | None => ret tt
      end
  end.

(** The two loops that fill [coupleData]. *)
Definition coupleData_loops (db : DB) (couples : list Couple)
    (pendingCouples : list PendingCouple) : list CoupleDatum :=
  let coupleData : list CoupleDatum := [] in
  let coupleData :=
    foldl (fun coupleData couple =>
             let homebuyer := Homebuyer_filter_couple db couple in
             coupleData ++ [(inl couple, inl homebuyer, false)])
      coupleData couples in
  foldl (fun coupleData pendingCouple =>
           let pendingHomebuyer :=
             PendingHomebuyer_filter_pending_couple db pendingCouple in
           coupleData ++ [(inr pendingCouple, inr pendingHomebuyer, true)])
    coupleData pendingCouples.

Definition HomeView_get (db : DB) (request : Request) : Outcome Response :=
  let uid := user_id (request_user request) in
  let couple := Couple_filter_homebuyer__user db uid in
  let realtor := Realtor_filter_user db uid in
  if truthy couple then
    let house := House_filter_couple db couple in
    Return (render "core/homebuyerHome.html" (HomebuyerHomeContext couple house))
  else if truthy realtor then
    let couples := Couple_filter_realtor db realtor in
    let pendingCouples := PendingCouple_filter_realtor db realtor in
    let house := House_filter_couple db couple in
    let coupleData := coupleData_loops db couples pendingCouples in
    Return (render "core/realtorHome.html"
              (RealtorHomeContext coupleData house realtor))
  else Raise (Exception "Neither a Homebuyer nor a Realtor").

(** [transaction.atomic]: when the block raises, the store goes back to what
    it was on entry and the exception goes on. *)
Definition transaction_atomic {A : Type} (block : Stm DB A) : Stm DB A :=
  fun db =>
    match block db with
    | (Return a, db') => (Return a, db')
    | (Raise e, _) => (Raise e, db)
    end.

Definition PendingCouple_create (realtor : Realtor) : Stm DB PendingCouple :=
  let* db := read in
  let pending_couple :=
    {| pending_couple_id := next_id (pending_couple_id <$> pending_couples db);
       pending_couple_realtor := realtor_id realtor |} in
  let* _ := write (set_pending_couples db (pending_couples db ++ [pending_couple])) in
  ret pending_couple.

(** In the homebuyer branch the name [couples] is read before the function
    has assigned it; the querysets of the realtor branch are evaluated when
    the loops iterate them, after the invitation block. *)
Definition HomeView_post (request : Request) : Stm DB Response :=
  let uid := user_id (request_user request) in
  let* db := read in
  let realtor := Realtor_filter_user db uid in
  let couple := Couple_filter_homebuyer__user db uid in
  if truthy couple then throw UnboundLocalError
  else if truthy realtor then
    let* _ :=
      match InviteHomebuyerForm_cleaned_data db (request_POST request) with
      | Some (first_email, second_email) =>
          transaction_atomic (
            let* db0 := read in
            let* user_realtor := lift (qs_get (Realtor_filter_user db0 uid)) in
            let* pending_couple := PendingCouple_create user_realtor in
            let* _ := HomeView__invite_homebuyer request pending_couple first_email in
            HomeView__invite_homebuyer request pending_couple second_email)
      | None => ret tt
      end in
    let* db' := read in
    let couples := Couple_filter_realtor db' realtor in
    let pendingCouples := PendingCouple_filter_realtor db' realtor in
    let house := House_filter_couple db' couple in
    let coupleData := coupleData_loops db' couples pendingCouples in
    ret (render "core/realtorHome.html"
           (RealtorHomeContext coupleData house realtor))
  else throw (Exception "Neither a Homebuyer nor a Realtor").

Definition HomeView_dispatch (request : Request) : Stm DB Response :=
  BaseView_dispatch _ALL_TYPES_ALLOWED BaseView__permission_check
    (fun db => (HomeView_get db request, db)) (HomeView_post request) request.

(** *** EvalView *)

(** The permission check reads [role_type]; a role of type ['Homebuyer'] is
    a Homebuyer instance, whose [couple] is fetched by key. *)
Definition EvalView__permission_check (kwargs_house_id : Z) (db : DB)
    (request : Request) (role : Role) : Outcome bool :=
  match role with
  | RoleHomebuyer h =>
      let? couple :=
        qs_get (filter (fun c => couple_id c = homebuyer_couple h) (couples db)) in
      Return (truthy (filter (fun x => house_couple x = couple_id couple
                                       ∧ house_id x = kwargs_house_id) (houses db)))
  | RoleRealtor _ => Return false
  end.

(** [dict(pairs)]: a later pair replaces an earlier one with the same key. *)
Definition py_dict (pairs : list (Z * string)) : gmap Z string :=
  foldl (fun d kv => <[kv.1 := kv.2]> d) ∅ pairs.

Definition dict_keys (d : gmap Z string) : list Z := (map_to_list d).*1.

(** [min] and [max] raise [ValueError] on an empty sequence. *)
Definition py_min (xs : list Z) : Outcome Z :=
  match xs with
  | [] => Raise ValueError
  | x :: rest => Return (foldl Z.min x rest)
  end.

Definition py_max (xs : list Z) : Outcome Z :=
  match xs with
  | [] => Raise ValueError
  | x :: rest => Return (foldl Z.max x rest)
  end.

Definition dict_getitem (d : gmap Z string) (k : Z) : Outcome string :=
  match d !! k with
  | Some v => Return v
  | None => Raise KeyError
  end.

(** [js_scores] holds the dictionary that [json.dumps] writes out. *)
Definition EvalView__score_context : Outcome ScoreContext :=
  let score_choices := py_dict score_field_choices in
  let? min_score := py_min (dict_keys score_choices) in
  let? max_score := py_max (dict_keys score_choices) in
  let? min_choice := dict_getitem score_choices min_score in
  let? max_choice := dict_getitem score_choices max_score in
  Return {| min_score := min_score;
            max_score := max_score;
            min_choice := min_choice;
            max_choice := max_choice;
            default_score := score_field_default;
            js_scores := score_choices |}.

(** The inner loop: the score of the first grade whose category's [id] is
    the very object [category.id], or [None] when the loop ends with
    [missing] still set. *)
Fixpoint find_grade (db : DB) (category : CategoryInstance) (grades : list Grade)
  : Stm nat (option Z) :=
  match grades with
  | [] => ret None
  | grade :: rest =>
      let* grade_category := Grade_category db grade in
      if py_is (instance_id grade_category) (instance_id category)
      then ret (Some (grade_score grade))
      else find_grade db category rest
  end.

(** The outer loop, appending one pair per category to [graded]. *)
Fixpoint merge_grades (db : DB) (graded : list (Category * option Z))
    (categories : list CategoryInstance) (grades : list Grade)
  : Stm nat (list (Category * option Z)) :=
  match categories with
  | [] => ret graded
  | category :: rest =>
      let* score := find_grade db category grades in
      merge_grades db (graded ++ [(instance_row category, score)]) rest grades
  end.

(** [Grade.objects.filter(house=house, homebuyer=homebuyer)] with the role
    object as the homebuyer: a Realtor instance is not accepted as the value
    of the filter, and [None] selects the rows without a homebuyer. *)
Definition Grade_filter_house_role (db : DB) (house : House)
    (homebuyer : option Role) : Outcome (list Grade) :=
  match homebuyer with
  | Some (RoleHomebuyer h) =>
      Return (Grade_filter_house_homebuyer db (house_id house) (homebuyer_id h))
  | Some (RoleRealtor _) => Raise ValueError
  | None => Return []
  end.

Definition EvalView_get (db : DB) (request : Request) (kwargs_house_id : Z)
  : Outcome Response :=
  let homebuyer := role_object (request_user request) in
  let couple := Couple_filter_homebuyer__user db (user_id (request_user request)) in
  let categories := Category_filter_couple db couple in
  let? house := get_object_or_404 (House_filter_id db kwargs_house_id) in
  let? grades := Grade_filter_house_role db house homebuyer in
  let? graded :=
    fst ((let* instances := from_db_all categories in
          merge_grades db [] instances grades) 0%nat) in
  let? score_context := EvalView__score_context in
  Return (render "core/houseEval.html"
            (HouseEvalContext couple house graded score_context)).

Definition POST_getitem (post : gmap string string) (key : string) : Outcome string :=
  match post !! key with
  | Some v => Return v
  | None => Raise MultiValueDictKeyError
  end.

(** [Category.objects.get(id=id)] on the text of the field. *)
Definition Category_get_id (db : DB) (id : string) : Outcome Category :=
  match py_int id with
  | Some cid => qs_get (Category_filter_id db cid)
  | None => Raise ValueError
  end.

(** [QuerySet.first] on a queryset without an ordering orders it by primary
    key. *)
Definition Homebuyer_first (qs : list Homebuyer) : option Homebuyer :=
  foldr (fun h best =>
           match best with
           | Some b => if bool_decide (homebuyer_id h ≤ homebuyer_id b)%Z
                       then Some h else Some b
           | None => Some h
           end) None qs.

(** [Model.save] on a fetched instance writes its columns to the rows that
    have its primary key, unless the database cannot hold the score. *)
Definition Grade_save (g : Grade) : Stm DB unit :=
  if Grade_score_storable (grade_score g) then
    (let* db := read in
     write (set_grades db
              ((fun x => if bool_decide (grade_id x = grade_id g) then g else x)
                 <$> grades db)))
  else throw OverflowError.

(** [Grade.objects.create]: the row is inserted unless the database cannot
    hold the score. *)
Definition Grade_create (hb cat house score : Z) : Stm DB Grade :=
  if Grade_score_storable score then
    (let* db := read in
     let g := {| grade_id := next_id (grade_id <$> grades db);
                 grade_homebuyer := hb; grade_category := cat;
                 grade_house := house; grade_score := score |} in
     let* _ := write (set_grades db (grades db ++ [g])) in
     ret g)
  else throw OverflowError.

(** [Grade.objects.update_or_create(homebuyer=, category=, house=,
    defaults={'score': score})]: the lookup by the triple comes first, then
    the one write. *)
Definition Grade_update_or_create (hb cat house score : Z) : Stm DB (Grade * bool) :=
  let* db := read in
  match Grade_filter db hb cat house with
  | [] =>
      let* g := Grade_create hb cat house score in
      ret (g, true)
  | [g] =>
      let g' := {| grade_id := grade_id g;
                   grade_homebuyer := grade_homebuyer g;
                   grade_category := grade_category g;
                   grade_house := grade_house g;
                   grade_score := score |} in
      let* _ := Grade_save g' in
      ret (g', false)
  | _ :: _ :: _ => throw MultipleObjectsReturned
  end.

(** A grade without a homebuyer is refused by the database. *)
Definition EvalView_post (request : Request) (kwargs_house_id : Z)
  : Stm DB Response :=
  if negb (request_is_ajax request) then throw PermissionDenied
  else
    let* db := read in
    let homebuyer := Homebuyer_filter_user_id db (user_id (request_user request)) in
    let* house := lift (get_object_or_404 (House_filter_id db kwargs_house_id)) in
    let* id := lift (POST_getitem (request_POST request) "category") in
    let* score := lift (POST_getitem (request_POST request) "score") in
    let* category := lift (Category_get_id db id) in
    let first := Homebuyer_first homebuyer in
    match py_int score with
    | None => throw ValueError
    | Some int_score =>
        match first with
        | None => throw IntegrityError
        | Some hb =>
            let* _ := Grade_update_or_create (homebuyer_id hb) (category_id category)
                        (house_id house) int_score in
            ret (HttpResponse [("id", id); ("score", score)] "application/json")
        end
    end.

Definition EvalView_dispatch (request : Request) (kwargs_house_id : Z)
  : Stm DB Response :=
  BaseView_dispatch _ALL_TYPES_ALLOWED (EvalView__permission_check kwargs_house_id)
    (fun db => (EvalView_get db request kwargs_house_id, db))
    (EvalView_post request kwargs_house_id) request.

(** ** Fixtures

    Concrete collaborators and a concrete database, on which the handlers are
    run. *)

(** A reading of unsigned decimal numerals, standing for [int] where a
    handler is run on a concrete request. *)
Definition digit_of_ascii (a : Ascii.ascii) : option Z :=
  let n := Z.of_nat (Ascii.nat_of_ascii a) in
  if bool_decide (48 ≤ n ≤ 57)%Z then Some (n - 48)%Z else None.

Fixpoint int_of_digits (acc : Z) (s : string) : option Z :=
  match s with
  | EmptyString => Some acc
  | String a rest =>
      match digit_of_ascii a with
      | Some d => int_of_digits (10 * acc + d)%Z rest
      | None => None
      end
  end.

Definition decimal_int (s : string) : option Z :=
  match s with
  | EmptyString => None
  | _ => int_of_digits 0 s
  end.

(** The invitation form, valid when both fields are present and differ. *)
Definition two_emails_form (db : DB) (post : gmap string string)
  : option (string * string) :=
  match post !! "first_email", post !! "second_email" with
  | Some a, Some b => if bool_decide (a = b) then None else Some (a, b)
  | _, _ => None
  end.

(** The integers a 64-bit signed column holds. *)
Definition sqlite_integer (v : Z) : bool :=
  bool_decide (- 2 ^ 63 ≤ v < 2 ^ 63)%Z.

Definition no_insert_error (db : DB) (h : PendingHomebuyer) : option Exn := None.
Definition email_delivered (h : PendingHomebuyer) (request : Request) : option Exn := None.

(** The database refuses the invitation of one address. *)
Definition refuse_email (bad : string) (db : DB) (h : PendingHomebuyer) : option Exn :=
  if bool_decide (pending_homebuyer_email h = bad) then Some IntegrityError else None.

Definition five_point_choices : list (Z * string) :=
  [(1, "Poor"); (2, "Below Average"); (3, "Average"); (4, "Above Average");
   (5, "Excellent")]%Z.

Definition alice : Homebuyer :=
  {| homebuyer_id := 1; homebuyer_user := 20; homebuyer_couple := 1 |}.
Definition bob : Homebuyer :=
  {| homebuyer_id := 2; homebuyer_user := 21; homebuyer_couple := 1 |}.
Definition carol : Homebuyer :=
  {| homebuyer_id := 3; homebuyer_user := 22; homebuyer_couple := 2 |}.
(** A homebuyer whose couple key names no row. *)
Definition dave : Homebuyer :=
  {| homebuyer_id := 4; homebuyer_user := 23; homebuyer_couple := 9 |}.
Definition rita : Realtor := {| realtor_id := 1; realtor_user := 10 |}.
(** A realtor who owns no couple. *)
Definition ravi : Realtor := {| realtor_id := 2; realtor_user := 11 |}.

Definition sample_db : DB :=
  {| realtors := [rita; ravi];
     couples := [ {| couple_id := 1; couple_realtor := 1 |};
                  {| couple_id := 2; couple_realtor := 1 |} ];
     homebuyers := [alice; bob; carol; dave];
     houses := [ {| house_id := 5; house_couple := 1 |};
                 {| house_id := 6; house_couple := 2 |} ];
     categories := [ {| category_id := 3; category_couple := 1 |};
                     {| category_id := 257; category_couple := 1 |};
                     {| category_id := 4; category_couple := 1 |} ];
     grades := [ {| grade_id := 1; grade_homebuyer := 1; grade_category := 257;
                    grade_house := 5; grade_score := 4 |};
                 {| grade_id := 2; grade_homebuyer := 1; grade_category := 3;
                    grade_house := 5; grade_score := 2 |} ];
     pending_couples := [ {| pending_couple_id := 1; pending_couple_realtor := 1 |} ];
     pending_homebuyers :=
       [ {| pending_homebuyer_id := 1; pending_homebuyer_email := "e@x.org";
            pending_homebuyer_pending_couple := 1 |} ] |}%Z.

Definition user_of (uid : Z) (role : option Role) : User :=
  {| is_authenticated := true; user_id := uid; role_object := role |}.

Definition request_of (u : User) (m : Method) (ajax : bool)
    (post : list (string * string)) : Request :=
  {| request_user := u; request_method := m; request_is_ajax := ajax;
     request_POST := list_to_map post |}.

Definition alice_user : User := user_of 20 (Some (RoleHomebuyer alice)).
Definition dave_user : User := user_of 23 (Some (RoleHomebuyer dave)).
Definition rita_user : User := user_of 10 (Some (RoleRealtor rita)).
Definition ravi_user : User := user_of 11 (Some (RoleRealtor ravi)).

Definition alice_get : Request := request_of alice_user GET false [].
Definition alice_grades (score : string) (ajax : bool) : Request :=
  request_of alice_user POST ajax [("category", "3"); ("score", score)].
Definition alice_home_post : Request := request_of alice_user POST false [].
Definition dave_get : Request := request_of dave_user GET false [].
Definition rita_get : Request := request_of rita_user GET false [].
Definition ravi_get : Request := request_of ravi_user GET false [].
Definition rita_empty_post : Request := request_of rita_user POST false [].
(** A choice set that gives the value 1 two labels. *)
Definition relabelled_choices : list (Z * string) :=
  [(1, "Poor"); (2, "Fair"); (1, "Bad")]%Z.
Definition rita_invites : Request :=
  request_of rita_user POST false
    [("first_email", "a@x.org"); ("second_email", "b@x.org")].

(** ** Properties *)

(** *** Vocabulary of the properties *)

(** The entry of [coupleData] for a couple and for a pending couple. *)
Definition couple_entry (db : DB) (c : Couple) : CoupleDatum :=
  (inl c, inl (Homebuyer_filter_couple db c), false).

Definition pending_entry (db : DB) (p : PendingCouple) : CoupleDatum :=
  (inr p, inr (PendingHomebuyer_filter_pending_couple db p), true).

(** The couple data of the realtor view over a database. *)
Definition realtor_couple_data (db : DB) (realtor : list Realtor) : list CoupleDatum :=
  (couple_entry db <$> Couple_filter_realtor db realtor)
    ++ (pending_entry db <$> PendingCouple_filter_realtor db realtor).

(** The couple of a homebuyer, as [role.couple] fetches it. *)
Definition Homebuyer_couple (db : DB) (h : Homebuyer) : Outcome Couple :=
  qs_get (filter (fun c => couple_id c = homebuyer_couple h) (couples db)).

(** The rows a lookup by (homebuyer, category, house) selects. *)
Definition same_triple (hb cat house : Z) (g : Grade) : Prop :=
  grade_homebuyer g = hb ∧ grade_category g = cat ∧ grade_house g = house.

#[local] Instance same_triple_dec hb cat house g : Decision (same_triple hb cat house g).
Proof. unfold same_triple. apply _. Defined.

Definition with_score (g : Grade) (score : Z) : Grade :=
  {| grade_id := grade_id g;
     grade_homebuyer := grade_homebuyer g;
     grade_category := grade_category g;
     grade_house := grade_house g;
     grade_score := score |}.

(** The acknowledgment of the write path. *)
Definition acknowledgment (id score : string) : Response :=
  HttpResponse [("id", id); ("score", score)] "application/json".

(** The exception of the first step that raises one. *)
Fixpoint first_error (steps : list (option Exn)) : option Exn :=
  match steps with
  | [] => None
  | Some e :: _ => Some e
  | None :: rest => first_error rest
  end.

(** An integer object that exists when the next free address is [next]. *)
Definition allocated_before (next : nat) (i : PyInt) : Prop :=
  match int_ref i with
  | SmallIntRef v => v = int_value i ∧ is_small_int v = true
  | HeapRef a => (a < next)%nat ∧ is_small_int (int_value i) = false
  end.

(** The score the merge pairs with a category: that of the first grade for
    the category, found only when the key of the category is one of the
    shared small integers. *)
Definition merged_score (grades : list Grade) (cid : Z) : option Z :=
  if is_small_int cid
  then grade_score <$> head (filter (fun g => grade_category g = cid) grades)
  else None.

(** The rows the grades point to exist, one per key. *)
Definition grade_categories_resolve (db : DB) : Prop :=
  forall g, g ∈ grades db -> exists c, Category_filter_id db (grade_category g) = [c].

(** At most one grade per (homebuyer, category, house). *)
Definition unique_per_triple (db : DB) : Prop :=
  forall hb cat house, (length (Grade_filter db hb cat house) ≤ 1)%nat.

(** Every pending homebuyer points to a pending couple of the table. *)
Definition pending_homebuyers_linked (db : DB) : Prop :=
  forall h, h ∈ pending_homebuyers db ->
            pending_homebuyer_pending_couple h ∈ pending_couple_id <$> pending_couples db.

(** The caller is logged in as a Homebuyer whose couple resolves and owns a
    house with the requested key. *)
Definition EvalView_admits (db : DB) (request : Request) (hid : Z) : Prop :=
  is_authenticated (request_user request) = true
  ∧ exists h couple house,
      role_object (request_user request) = Some (RoleHomebuyer h)
      ∧ Homebuyer_couple db h = Return couple
      ∧ house ∈ houses db
      ∧ house_id house = hid
      ∧ house_couple house = couple_id couple.

(** The tables a grade submission does not write. *)
Definition same_but_grades (db db' : DB) : Prop :=
  db' = set_grades db (grades db').

(** *** Lists and querysets *)

Lemma foldl_snoc {A B : Type} (f : A -> B) (l : list A) (acc : list B) :
  foldl (fun acc x => acc ++ [f x]) acc l = acc ++ (f <$> l).
Proof.
  revert acc. induction l as [|x l IH]; intros acc; simpl.
  - by rewrite app_nil_r.
  - rewrite IH. by rewrite <- app_assoc.
Qed.

Lemma truthy_true {A : Type} (qs : list A) : truthy qs = true <-> qs ≠ [].
Proof. destruct qs; simpl; split; congruence. Qed.

Lemma truthy_false {A : Type} (qs : list A) : truthy qs = false <-> qs = [].
Proof. destruct qs; simpl; split; congruence. Qed.

Lemma coupleData_loops_app db cs ps :
  coupleData_loops db cs ps = (couple_entry db <$> cs) ++ (pending_entry db <$> ps).
Proof.
  unfold coupleData_loops.
  rewrite (foldl_snoc (pending_entry db)), (foldl_snoc (couple_entry db)).
  reflexivity.
Qed.

(** *** Home dispatch *)

Lemma HomeView_get_homebuyer_branch db request :
  let uid := user_id (request_user request) in
  Couple_filter_homebuyer__user db uid ≠ [] ->
  HomeView_get db request =
    Return (render "core/homebuyerHome.html"
              (HomebuyerHomeContext (Couple_filter_homebuyer__user db uid)
                 (House_filter_couple db (Couple_filter_homebuyer__user db uid)))).
Proof.
  intros uid H. unfold HomeView_get. fold uid.
  apply truthy_true in H. by rewrite H.
Qed.

Lemma House_filter_couple_nil db : House_filter_couple db [] = [].
Proof.
  unfold House_filter_couple. induction (houses db) as [|h l IH]; [done|].
  rewrite filter_cons. destruct (decide _) as [Hin|_]; [|exact IH].
  simpl in Hin. by apply elem_of_nil in Hin.
Qed.

Lemma HomeView_get_realtor_branch db request :
  let uid := user_id (request_user request) in
  let realtor := Realtor_filter_user db uid in
  Couple_filter_homebuyer__user db uid = [] ->
  realtor ≠ [] ->
  HomeView_get db request =
    Return (render "core/realtorHome.html"
              (RealtorHomeContext
                 ((couple_entry db <$> Couple_filter_realtor db realtor)
                    ++ (pending_entry db <$> PendingCouple_filter_realtor db realtor))
                 [] realtor)).
Proof.
  intros uid realtor Hc Hr. unfold HomeView_get. fold uid. fold realtor.
  rewrite Hc. simpl. apply truthy_true in Hr. rewrite Hr.
  by rewrite coupleData_loops_app, House_filter_couple_nil.
Qed.

Lemma HomeView_get_neither db request :
  let uid := user_id (request_user request) in
  HomeView_get db request = Raise (Exception "Neither a Homebuyer nor a Realtor")
  <-> Couple_filter_homebuyer__user db uid = [] ∧ Realtor_filter_user db uid = [].
Proof.
  intros uid. unfold HomeView_get. fold uid.
  destruct (Couple_filter_homebuyer__user db uid) as [|c cs] eqn:Hc; simpl.
  - destruct (Realtor_filter_user db uid) as [|r rs] eqn:Hr; simpl.
    + split; [done|]. done.
    + split; [discriminate|]. intros [_ ?]. discriminate.
  - split; [discriminate|]. intros [? _]. discriminate.
Qed.

Lemma HomeView_post_homebuyer_branch db request :
  Couple_filter_homebuyer__user db (user_id (request_user request)) ≠ [] ->
  HomeView_post request db = (Raise UnboundLocalError, db).
Proof.
  intros H. apply truthy_true in H.
  unfold HomeView_post, bind, read. by rewrite H.
Qed.

Lemma HomeView_post_neither db request :
  let uid := user_id (request_user request) in
  Couple_filter_homebuyer__user db uid = [] ->
  Realtor_filter_user db uid = [] ->
  HomeView_post request db =
    (Raise (Exception "Neither a Homebuyer nor a Realtor"), db).
Proof.
  intros uid Hc Hr. unfold HomeView_post, bind, read. fold uid.
  by rewrite Hc, Hr.
Qed.

Lemma HomeView_post_realtor_render db request response db' :
  let uid := user_id (request_user request) in
  let realtor := Realtor_filter_user db uid in
  Couple_filter_homebuyer__user db uid = [] ->
  realtor ≠ [] ->
  HomeView_post request db = (Return response, db') ->
  response = render "core/realtorHome.html"
               (RealtorHomeContext (realtor_couple_data db' realtor) [] realtor).
Proof.
  intros uid realtor Hc Hr. apply truthy_true in Hr.
  unfold HomeView_post, bind, read. fold uid. fold realtor.
  rewrite Hc, Hr. simpl.
  destruct (InviteHomebuyerForm_cleaned_data db (request_POST request))
    as [[first_email second_email]|].
  - destruct (transaction_atomic _ db) as [[[]|e] db1]; [|discriminate].
    unfold ret. intros [= <- <-].
    by rewrite coupleData_loops_app, House_filter_couple_nil.
  - unfold ret. intros [= <- <-].
    by rewrite coupleData_loops_app, House_filter_couple_nil.
Qed.

(** C9: for a caller in the realtor branch (in no couple, with a Realtor
    record) the couple data rendered by GET, and by any POST that renders,
    is the sequence of (couple, homebuyers, False) for the realtor's couples
    in order followed by the sequence of (pending couple, pending
    homebuyers, True) for the realtor's pending couples in order. *)
Theorem HomeView_realtor_couple_data db request :
  let uid := user_id (request_user request) in
  let realtor := Realtor_filter_user db uid in
  Couple_filter_homebuyer__user db uid = [] ->
  realtor ≠ [] ->
  HomeView_get db request =
    Return (render "core/realtorHome.html"
              (RealtorHomeContext
                 (((fun c => (inl c, inl (Homebuyer_filter_couple db c), false))
                     <$> Couple_filter_realtor db realtor)
                  ++ ((fun p => (inr p,
                                 inr (PendingHomebuyer_filter_pending_couple db p),
                                 true))
                        <$> PendingCouple_filter_realtor db realtor))
                 [] realtor))
  ∧ (forall response db',
       HomeView_post request db = (Return response, db') ->
       response =
         render "core/realtorHome.html"
           (RealtorHomeContext
              (((fun c => (inl c, inl (Homebuyer_filter_couple db' c), false))
                  <$> Couple_filter_realtor db' realtor)
               ++ ((fun p => (inr p,
                              inr (PendingHomebuyer_filter_pending_couple db' p),
                              true))
                     <$> PendingCouple_filter_realtor db' realtor))
              [] realtor)).
Proof.
  intros uid realtor Hc Hr. split.
  - by apply HomeView_get_realtor_branch.
  - intros response db' H.
    by apply (HomeView_post_realtor_render db request response db').
Qed.

(** C7, as amended: GET resolves by the records and not by the role.  It
    renders the homebuyer view exactly when a couple holds the caller; with
    no such couple and a Realtor record it renders the realtor view, whether
    or not the realtor owns a couple; it raises the 'neither' exception
    exactly when the caller has neither. *)
Theorem HomeView_get_resolution db request :
  let uid := user_id (request_user request) in
  ((exists context,
       HomeView_get db request = Return (render "core/homebuyerHome.html" context))
   <-> Couple_filter_homebuyer__user db uid ≠ [])
  ∧ (Couple_filter_homebuyer__user db uid = [] ->
     Realtor_filter_user db uid ≠ [] ->
     exists context,
       HomeView_get db request = Return (render "core/realtorHome.html" context))
  ∧ (HomeView_get db request = Raise (Exception "Neither a Homebuyer nor a Realtor")
     <-> Couple_filter_homebuyer__user db uid = [] ∧ Realtor_filter_user db uid = []).
Proof.
  intros uid. split; [|split].
  - split.
    + intros [context H] Hc.
      destruct (Realtor_filter_user db uid) as [|r rs] eqn:Hr.
      * assert (HomeView_get db request
                = Raise (Exception "Neither a Homebuyer nor a Realtor")) as E
          by (by apply HomeView_get_neither).
        congruence.
      * pose proof (HomeView_get_realtor_branch db request Hc) as E.
        simpl in E. fold uid in E. rewrite Hr in E.
        specialize (E ltac:(discriminate)). rewrite E in H. discriminate.
    + intros Hc. eexists. by apply HomeView_get_homebuyer_branch.
  - intros Hc Hr. eexists. by apply HomeView_get_realtor_branch.
  - apply HomeView_get_neither.
Qed.

(** *** The permission gate of the evaluation view *)

Lemma EvalView_dispatch_gate_closed db request h couple hid :
  is_authenticated (request_user request) = true ->
  role_object (request_user request) = Some (RoleHomebuyer h) ->
  Homebuyer_couple db h = Return couple ->
  filter (fun x => house_couple x = couple_id couple ∧ house_id x = hid) (houses db) = [] ->
  EvalView_dispatch request hid db = (Raise PermissionDenied, db).
Proof.
  intros Hauth Hrole Hcouple Hnone.
  unfold EvalView_dispatch, BaseView_dispatch. rewrite Hauth, Hrole. simpl.
  unfold bind, read, lift, EvalView__permission_check.
  unfold Homebuyer_couple in Hcouple. rewrite Hcouple. simpl.
  by rewrite Hnone.
Qed.

Lemma EvalView_dispatch_gate_open db request h couple hid :
  is_authenticated (request_user request) = true ->
  role_object (request_user request) = Some (RoleHomebuyer h) ->
  Homebuyer_couple db h = Return couple ->
  filter (fun x => house_couple x = couple_id couple ∧ house_id x = hid) (houses db) ≠ [] ->
  EvalView_dispatch request hid db =
    View_dispatch (fun db => (EvalView_get db request hid, db))
      (EvalView_post request hid) request db.
Proof.
  intros Hauth Hrole Hcouple Hsome. apply truthy_true in Hsome.
  unfold EvalView_dispatch, BaseView_dispatch. rewrite Hauth, Hrole. simpl.
  unfold bind, read, lift, EvalView__permission_check.
  unfold Homebuyer_couple in Hcouple. rewrite Hcouple. simpl.
  by rewrite Hsome.
Qed.

Lemma NoDup_fmap_eq {A B : Type} (f : A -> B) (l : list A) (x y : A) :
  NoDup (f <$> l) -> x ∈ l -> y ∈ l -> f x = f y -> x = y.
Proof.
  induction l as [|a l IH]; intros Hnd Hx Hy Hf.
  - by apply elem_of_nil in Hx.
  - rewrite fmap_cons in Hnd. apply NoDup_cons in Hnd as [Hnotin Hnd].
    apply elem_of_cons in Hx as [->|Hx]; apply elem_of_cons in Hy as [->|Hy].
    + done.
    + exfalso. apply Hnotin. rewrite Hf. by apply list_elem_of_fmap_2.
    + exfalso. apply Hnotin. rewrite <- Hf. by apply list_elem_of_fmap_2.
    + by apply IH.
Qed.

Lemma filter_nil_iff {A : Type} (P : A -> Prop) `{!forall x, Decision (P x)}
    (l : list A) :
  filter P l = [] <-> forall x, x ∈ l -> ¬ P x.
Proof.
  split.
  - intros Hnil x Hx HP.
    assert (x ∈ filter P l) as Hin by (apply list_elem_of_filter; done).
    rewrite Hnil in Hin. by apply elem_of_nil in Hin.
  - intros Hall. destruct (filter P l) as [|y ys] eqn:E; [done|].
    assert (y ∈ filter P l) as Hin by (rewrite E; left).
    apply list_elem_of_filter in Hin as [HP Hy]. by destruct (Hall y Hy).
Qed.

(** C5: an authenticated Homebuyer whose couple resolves, asking for a house
    that exists and belongs to another couple, is answered
    [PermissionDenied] (status 403) by the dispatch of the evaluation view
    whatever the request method, GET and POST alike, and the database is
    left as it was. *)
Theorem EvalView_foreign_house_denied db request h couple house :
  is_authenticated (request_user request) = true ->
  role_object (request_user request) = Some (RoleHomebuyer h) ->
  Homebuyer_couple db h = Return couple ->
  NoDup (house_id <$> houses db) ->
  house ∈ houses db ->
  house_couple house ≠ couple_id couple ->
  EvalView_dispatch request (house_id house) db = (Raise PermissionDenied, db)
  ∧ status_of_exn PermissionDenied = 403%Z.
Proof.
  intros Hauth Hrole Hcouple Hnd Hin Hforeign. split; [|done].
  apply (EvalView_dispatch_gate_closed db request h couple); try done.
  apply filter_nil_iff. intros x Hx [Hc Hid].
  assert (x = house) as -> by (by apply (NoDup_fmap_eq house_id (houses db))).
  done.
Qed.



(** *** The write path *)

(** C4: a POST that is not AJAX is answered [PermissionDenied] by the
    handler whatever the payload, the house identifier and the database,
    and the database, hence every Grade, is left as it was. *)
Theorem EvalView_post_not_ajax db request hid :
  request_is_ajax request = false ->
  EvalView_post request hid db = (Raise PermissionDenied, db).
Proof. intros H. unfold EvalView_post. by rewrite H. Qed.

(** Through the dispatch as well, a POST that is not AJAX never changes the
    database and never returns the acknowledgment. *)
Lemma EvalView_dispatch_not_ajax db request hid :
  request_method request = POST ->
  request_is_ajax request = false ->
  (EvalView_dispatch request hid db).2 = db
  ∧ forall content content_type,
      (EvalView_dispatch request hid db).1 ≠ Return (HttpResponse content content_type).
Proof.
  intros Hm Hajax.
  unfold EvalView_dispatch, BaseView_dispatch.
  destruct (is_authenticated (request_user request)); simpl; [|by split].
  destruct (role_object (request_user request)) as [role|]; [|by split].
  destruct (bool_decide _); [|by split].
  unfold bind, read, lift. simpl.
  destruct (EvalView__permission_check hid db request role) as [[]|e]; [| |].
  - unfold View_dispatch. rewrite Hm.
    unfold EvalView_post. rewrite Hajax. by split.
  - by split.
  - by split.
Qed.

(** *** Scoring metadata *)

Lemma foldl_min_spec (x : Z) (l : list Z) :
  let m := foldl Z.min x l in
  (m = x ∨ m ∈ l) ∧ (m ≤ x)%Z ∧ forall y, y ∈ l -> (m ≤ y)%Z.
Proof.
  revert x. induction l as [|a l IH]; intros x; simpl.
  - split; [by left|]. split; [lia|]. intros y Hy. by apply elem_of_nil in Hy.
  - destruct (IH (Z.min x a)) as (Hm & Hle & Hall). split; [|split].
    + destruct Hm as [Hm|Hm].
      * rewrite Hm. destruct (Z.min_spec x a) as [[_ ->]|[_ ->]];
          [by left | right; left].
      * right. by right.
    + lia.
    + intros y Hy. apply elem_of_cons in Hy as [->|Hy]; [lia|by apply Hall].
Qed.

Lemma foldl_max_spec (x : Z) (l : list Z) :
  let m := foldl Z.max x l in
  (m = x ∨ m ∈ l) ∧ (x ≤ m)%Z ∧ forall y, y ∈ l -> (y ≤ m)%Z.
Proof.
  revert x. induction l as [|a l IH]; intros x; simpl.
  - split; [by left|]. split; [lia|]. intros y Hy. by apply elem_of_nil in Hy.
  - destruct (IH (Z.max x a)) as (Hm & Hle & Hall). split; [|split].
    + destruct Hm as [Hm|Hm].
      * rewrite Hm. destruct (Z.max_spec x a) as [[_ ->]|[_ ->]];
          [right; left | by left].
      * right. by right.
    + lia.
    + intros y Hy. apply elem_of_cons in Hy as [->|Hy]; [lia|by apply Hall].
Qed.

Lemma py_min_spec (l : list Z) (m : Z) :
  py_min l = Return m -> m ∈ l ∧ forall y, y ∈ l -> (m ≤ y)%Z.
Proof.
  destruct l as [|x l]; simpl; [discriminate|]. intros [= <-].
  destruct (foldl_min_spec x l) as (Hm & Hle & Hall). split.
  - destruct Hm as [->|Hm]; [left|by right].
  - intros y Hy. apply elem_of_cons in Hy as [->|Hy]; [done|by apply Hall].
Qed.

Lemma py_max_spec (l : list Z) (m : Z) :
  py_max l = Return m -> m ∈ l ∧ forall y, y ∈ l -> (y ≤ m)%Z.
Proof.
  destruct l as [|x l]; simpl; [discriminate|]. intros [= <-].
  destruct (foldl_max_spec x l) as (Hm & Hle & Hall). split.
  - destruct Hm as [->|Hm]; [left|by right].
  - intros y Hy. apply elem_of_cons in Hy as [->|Hy]; [done|by apply Hall].
Qed.

Lemma py_dict_snoc (pairs : list (Z * string)) (k : Z) (v : string) :
  py_dict (pairs ++ [(k, v)]) = <[k := v]> (py_dict pairs).
Proof. unfold py_dict. by rewrite foldl_app. Qed.

(** A key of the dictionary is a key of the pairs, and conversely; its
    value is the label of a pair with that key. *)
Lemma py_dict_lookup_Some (pairs : list (Z * string)) (k : Z) (v : string) :
  py_dict pairs !! k = Some v -> (k, v) ∈ pairs.
Proof.
  induction pairs as [|[k' v'] pairs IH] using rev_ind.
  - unfold py_dict. simpl. by rewrite lookup_empty.
  - rewrite py_dict_snoc. rewrite lookup_insert. case_decide as E.
    + intros [= <-]. subst k'. apply elem_of_app. right. left.
    + intros H. apply elem_of_app. left. by apply IH.
Qed.

Lemma py_dict_is_Some (pairs : list (Z * string)) (k : Z) :
  is_Some (py_dict pairs !! k) <-> k ∈ pairs.*1.
Proof.
  induction pairs as [|[k' v'] pairs IH] using rev_ind.
  - unfold py_dict. simpl. rewrite lookup_empty. split.
    + by intros [? ?].
    + intros H. by apply elem_of_nil in H.
  - rewrite py_dict_snoc, fmap_app, elem_of_app. simpl.
    rewrite lookup_insert. case_decide as E.
    + subst k'. split; [intros _; right; left | intros _; by eexists].
    + rewrite IH. split; [by left|]. intros [H|H]; [done|].
      apply elem_of_cons in H as [->|H]; [done|by apply elem_of_nil in H].
Qed.

(** The label is that of the last pair with the key. *)
Lemma py_dict_last_wins (pairs later : list (Z * string)) (k : Z) (v : string) :
  k ∉ later.*1 -> py_dict (pairs ++ (k, v) :: later) !! k = Some v.
Proof.
  induction later as [|[k' v'] later IH] using rev_ind; intros Hk.
  - rewrite py_dict_snoc. by rewrite lookup_insert_eq.
  - rewrite app_comm_cons, app_assoc, py_dict_snoc.
    rewrite fmap_app in Hk. simpl in Hk.
    rewrite lookup_insert_ne.
    + apply IH. intros H. apply Hk. apply elem_of_app. by left.
    + intros ->. apply Hk. apply elem_of_app. right. left.
Qed.

Lemma dict_keys_elem (d : gmap Z string) (k : Z) :
  k ∈ dict_keys d <-> is_Some (d !! k).
Proof.
  unfold dict_keys. rewrite list_elem_of_fmap. split.
  - intros [[k' v] [-> H]]. apply elem_of_map_to_list in H. by eexists.
  - intros [v H]. exists (k, v). split; [done|]. by apply elem_of_map_to_list.
Qed.

Lemma dict_keys_nonempty (pairs : list (Z * string)) :
  pairs ≠ [] -> dict_keys (py_dict pairs) ≠ [].
Proof.
  destruct pairs as [|[k v] pairs]; [done|]. intros _ H.
  assert (k ∈ dict_keys (py_dict ((k, v) :: pairs))) as Hin.
  { apply dict_keys_elem, py_dict_is_Some. left. }
  rewrite H in Hin. by apply elem_of_nil in Hin.
Qed.

Lemma EvalView__score_context_returns :
  score_field_choices ≠ [] ->
  exists sc,
    EvalView__score_context = Return sc
    ∧ py_min (dict_keys (py_dict score_field_choices)) = Return (min_score sc)
    ∧ py_max (dict_keys (py_dict score_field_choices)) = Return (max_score sc)
    ∧ py_dict score_field_choices !! min_score sc = Some (min_choice sc)
    ∧ py_dict score_field_choices !! max_score sc = Some (max_choice sc)
    ∧ default_score sc = score_field_default
    ∧ js_scores sc = py_dict score_field_choices.
Proof.
  intros Hne. unfold EvalView__score_context.
  pose proof (dict_keys_nonempty _ Hne) as Hkeys.
  destruct (py_min (dict_keys (py_dict score_field_choices))) as [lo|e] eqn:Hlo;
    [|destruct (dict_keys (py_dict score_field_choices)); done].
  destruct (py_max (dict_keys (py_dict score_field_choices))) as [hi|e] eqn:Hhi;
    [|destruct (dict_keys (py_dict score_field_choices)); done].
  apply py_min_spec in Hlo as Hlo'. destruct Hlo' as [Hlo_in _].
  apply py_max_spec in Hhi as Hhi'. destruct Hhi' as [Hhi_in _].
  apply dict_keys_elem in Hlo_in as [lo_label Hlo_label].
  apply dict_keys_elem in Hhi_in as [hi_label Hhi_label].
  simpl. unfold dict_getitem. rewrite Hlo_label. simpl. rewrite Hhi_label. simpl.
  eexists. split; [reflexivity|]. simpl. by repeat split.
Qed.

(** C8: with a non-empty choice set the score context is computed, its
    minimum and maximum are the least and the greatest choice value, the two
    choices are the labels the choice set gives those values (the label the
    dictionary of the choices holds), and the default is the field's. *)
Theorem EvalView__score_context_spec :
  score_field_choices ≠ [] ->
  exists sc,
    EvalView__score_context = Return sc
    ∧ min_score sc ∈ score_field_choices.*1
    ∧ (forall k, k ∈ score_field_choices.*1 -> (min_score sc ≤ k)%Z)
    ∧ max_score sc ∈ score_field_choices.*1
    ∧ (forall k, k ∈ score_field_choices.*1 -> (k ≤ max_score sc)%Z)
    ∧ py_dict score_field_choices !! min_score sc = Some (min_choice sc)
    ∧ py_dict score_field_choices !! max_score sc = Some (max_choice sc)
    ∧ (min_score sc, min_choice sc) ∈ score_field_choices
    ∧ (max_score sc, max_choice sc) ∈ score_field_choices
    ∧ default_score sc = score_field_default
    ∧ js_scores sc = py_dict score_field_choices.
Proof.
  intros Hne.
  destruct (EvalView__score_context_returns Hne)
    as (sc & Hrun & Hlo & Hhi & Hlo_label & Hhi_label & Hdefault & Hjs).
  exists sc. split; [done|].
  apply py_min_spec in Hlo as [Hlo_in Hlo_le].
  apply py_max_spec in Hhi as [Hhi_in Hhi_le].
  assert (forall k, k ∈ score_field_choices.*1 ->
                    k ∈ dict_keys (py_dict score_field_choices)) as Hall.
  { intros k Hk. by apply dict_keys_elem, py_dict_is_Some. }
  repeat split; try done.
  - apply py_dict_is_Some. by eexists.
  - intros k Hk. by apply Hlo_le, Hall.
  - apply py_dict_is_Some. by eexists.
  - intros k Hk. by apply Hhi_le, Hall.
  - by apply py_dict_lookup_Some.
  - by apply py_dict_lookup_Some.
Qed.

(** *** The upsert of the write path *)

Lemma foldr_max_ge (ids : list Z) (x : Z) :
  x ∈ ids -> (x ≤ foldr Z.max 0 ids)%Z.
Proof.
  induction ids as [|a ids IH]; intros Hx.
  - by apply elem_of_nil in Hx.
  - simpl. apply elem_of_cons in Hx as [->|Hx]; [lia|].
    specialize (IH Hx). lia.
Qed.

Lemma next_id_fresh (ids : list Z) : next_id ids ∉ ids.
Proof. intros H. apply foldr_max_ge in H. unfold next_id in H. lia. Qed.

Lemma filter_saved (P : Grade -> Prop) `{!forall x, Decision (P x)}
    (g g' : Grade) (l : list Grade) :
  (forall x, x ∈ l -> grade_id x = grade_id g -> x = g) ->
  P g -> P g' ->
  filter P ((fun x => if bool_decide (grade_id x = grade_id g) then g' else x) <$> l)
  = (fun x => if bool_decide (grade_id x = grade_id g) then g' else x) <$> filter P l.
Proof.
  intros Huniq Hg Hg'. induction l as [|x l IH]; [done|].
  rewrite fmap_cons, !filter_cons.
  assert (forall y, y ∈ l -> grade_id y = grade_id g -> y = g) as Hl
    by (intros y Hy; apply Huniq; by right).
  specialize (IH Hl).
  case_bool_decide as E.
  - assert (x = g) as -> by (apply Huniq; [left|done]).
    rewrite !decide_True by done. rewrite fmap_cons, bool_decide_true by done.
    by rewrite IH.
  - destruct (decide (P x)).
    + rewrite fmap_cons, bool_decide_false by done. by rewrite IH.
    + done.
Qed.

Lemma Grade_update_or_create_spec db hb cat house score :
  Grade_score_storable score = true ->
  NoDup (grade_id <$> grades db) ->
  (length (Grade_filter db hb cat house) ≤ 1)%nat ->
  exists g created gs,
    Grade_update_or_create hb cat house score db = (Return (g, created), set_grades db gs)
    ∧ Grade_filter (set_grades db gs) hb cat house = [g]
    ∧ grade_score g = score
    ∧ NoDup (grade_id <$> gs)
    ∧ match Grade_filter db hb cat house with
      | [] => created = true ∧ gs = grades db ++ [g]
      | old :: _ => created = false ∧ g = with_score old score
                    ∧ length gs = length (grades db)
      end.
Proof.
  intros Hstorable Hnd Hlen. unfold Grade_update_or_create, bind, read.
  destruct (Grade_filter db hb cat house) as [|old [|g2 rest]] eqn:E.
  - unfold Grade_create. rewrite Hstorable. unfold bind, read, write, ret. simpl.
    eexists _, true, _. split; [reflexivity|].
    unfold Grade_filter in *. simpl.
    rewrite filter_app, E. simpl.
    rewrite filter_cons, decide_True by done.
    split; [done|]. split; [done|]. split; [|done].
    rewrite fmap_app. apply NoDup_app. split; [done|]. split.
    + intros x Hx Hx'. simpl in Hx'. apply list_elem_of_singleton in Hx'. subst x.
      by apply next_id_fresh in Hx.
    + simpl. apply NoDup_singleton.
  - unfold Grade_save. simpl. rewrite Hstorable. unfold bind, read, write, ret. simpl.
    eexists _, false, _. split; [reflexivity|].
    change {| grade_id := grade_id old; grade_homebuyer := grade_homebuyer old;
              grade_category := grade_category old; grade_house := grade_house old;
              grade_score := score |} with (with_score old score).
    assert (old ∈ Grade_filter db hb cat house) as Hold by (rewrite E; left).
    apply list_elem_of_filter in Hold as [Htriple Hold].
    unfold Grade_filter in *. simpl.
    split; [|split; [done|split]].
    + rewrite (filter_saved _ old (with_score old score)).
      * rewrite E. simpl. by rewrite bool_decide_true.
      * intros x Hx Hid. by apply (NoDup_fmap_eq grade_id (grades db)).
      * done.
      * done.
    + rewrite <- list_fmap_compose.
      erewrite list_fmap_ext; [exact Hnd|].
      intros i x _. simpl. by case_bool_decide.
    + split; [done|]. split; [done|]. by rewrite length_fmap.
  - simpl in Hlen. lia.
Qed.

Lemma EvalView_post_ok db request hid house category hb id cid score v :
  request_is_ajax request = true ->
  request_POST request !! "category" = Some id ->
  request_POST request !! "score" = Some score ->
  py_int id = Some cid ->
  py_int score = Some v ->
  Grade_score_storable v = true ->
  House_filter_id db hid = [house] ->
  Category_filter_id db cid = [category] ->
  Homebuyer_first (Homebuyer_filter_user_id db (user_id (request_user request)))
    = Some hb ->
  NoDup (grade_id <$> grades db) ->
  (length (Grade_filter db (homebuyer_id hb) (category_id category) (house_id house))
     ≤ 1)%nat ->
  exists g gs,
    EvalView_post request hid db = (Return (acknowledgment id score), set_grades db gs)
    ∧ Grade_filter (set_grades db gs) (homebuyer_id hb) (category_id category)
        (house_id house) = [g]
    ∧ grade_score g = v
    ∧ NoDup (grade_id <$> gs)
    ∧ match Grade_filter db (homebuyer_id hb) (category_id category) (house_id house) with
      | [] => gs = grades db ++ [g]
      | old :: _ => g = with_score old v ∧ length gs = length (grades db)
      end.
Proof.
  intros Hajax Hid Hscore Hcid Hv Hstorable Hhouse Hcat Hhb Hnd Hlen.
  destruct (Grade_update_or_create_spec db (homebuyer_id hb) (category_id category)
              (house_id house) v Hstorable Hnd Hlen)
    as (g & created & gs & Hrun & Hone & Hs & Hnd' & Hcase).
  exists g, gs.
  unfold EvalView_post. rewrite Hajax. simpl.
  unfold bind, read, lift, get_object_or_404, POST_getitem, Category_get_id.
  rewrite Hhouse, Hid, Hscore, Hcid, Hcat, Hv, Hhb. simpl.
  rewrite Hrun. unfold ret, acknowledgment.
  repeat split; try done.
  destruct (Grade_filter db _ _ _); [by destruct Hcase | by destruct Hcase as [_ ?]].
Qed.

(** C2: two valid AJAX submissions by one user for one category and one
    house, with scores the database can hold, on a database holding at most
    one Grade for the triple, both succeed; after the second the triple has
    exactly one Grade row, its score is the second score, and the second
    submission added no row.  The first creates the row when there was none
    and updates the score of the row when there was one. *)
Theorem EvalView_post_twice db request1 request2 hid house category hb
    id cid score1 score2 v1 v2 :
  request_is_ajax request1 = true ->
  request_is_ajax request2 = true ->
  user_id (request_user request2) = user_id (request_user request1) ->
  request_POST request1 !! "category" = Some id ->
  request_POST request2 !! "category" = Some id ->
  request_POST request1 !! "score" = Some score1 ->
  request_POST request2 !! "score" = Some score2 ->
  py_int id = Some cid ->
  py_int score1 = Some v1 ->
  py_int score2 = Some v2 ->
  Grade_score_storable v1 = true ->
  Grade_score_storable v2 = true ->
  House_filter_id db hid = [house] ->
  Category_filter_id db cid = [category] ->
  Homebuyer_first (Homebuyer_filter_user_id db (user_id (request_user request1)))
    = Some hb ->
  NoDup (grade_id <$> grades db) ->
  (length (Grade_filter db (homebuyer_id hb) (category_id category) (house_id house))
     ≤ 1)%nat ->
  exists db1 db2 g1 g2,
    EvalView_post request1 hid db = (Return (acknowledgment id score1), db1)
    ∧ EvalView_post request2 hid db1 = (Return (acknowledgment id score2), db2)
    ∧ Grade_filter db1 (homebuyer_id hb) (category_id category) (house_id house) = [g1]
    ∧ grade_score g1 = v1
    ∧ match Grade_filter db (homebuyer_id hb) (category_id category) (house_id house) with
      | [] => grades db1 = grades db ++ [g1]
      | old :: _ => g1 = with_score old v1 ∧ length (grades db1) = length (grades db)
      end
    ∧ Grade_filter db2 (homebuyer_id hb) (category_id category) (house_id house) = [g2]
    ∧ g2 = with_score g1 v2
    ∧ length (grades db2) = length (grades db1).
Proof.
  intros Hajax1 Hajax2 Huser Hid1 Hid2 Hs1 Hs2 Hcid Hv1 Hv2 Hst1 Hst2
         Hhouse Hcat Hhb Hnd Hlen.
  destruct (EvalView_post_ok db request1 hid house category hb id cid score1 v1)
    as (g1 & gs1 & Hrun1 & Hone1 & Hsc1 & Hnd1 & Hcase1); try done.
  assert (length (Grade_filter (set_grades db gs1) (homebuyer_id hb)
                    (category_id category) (house_id house)) ≤ 1)%nat as Hlen1
    by (by rewrite Hone1).
  destruct (EvalView_post_ok (set_grades db gs1) request2 hid house category hb
              id cid score2 v2)
    as (g2 & gs2 & Hrun2 & Hone2 & Hsc2 & Hnd2 & Hcase2); try done.
  { by rewrite Huser. }
  rewrite Hone1 in Hcase2. destruct Hcase2 as [Hg2 Hlen2].
  exists (set_grades db gs1), (set_grades (set_grades db gs1) gs2), g1, g2.
  repeat split; try done.
Qed.

(** *** The invitation transaction *)

(** C3: a valid invitation form submitted by a caller in the realtor branch
    with one Realtor record.  When no step raises, the response is the
    realtor view and the database has gained exactly one PendingCouple, of
    that realtor, and exactly two PendingHomebuyers, one per email in order,
    both linked to it.  When a step after the creation of the PendingCouple
    raises, be it an insertion or the sending of an invite, the exception
    propagates and the database is the one before the submission. *)
Theorem HomeView_post_invitation db request r first_email second_email :
  let uid := user_id (request_user request) in
  Couple_filter_homebuyer__user db uid = [] ->
  Realtor_filter_user db uid = [r] ->
  InviteHomebuyerForm_cleaned_data db (request_POST request)
    = Some (first_email, second_email) ->
  let pending_couple :=
    {| pending_couple_id := next_id (pending_couple_id <$> pending_couples db);
       pending_couple_realtor := realtor_id r |} in
  let db1 := set_pending_couples db (pending_couples db ++ [pending_couple]) in
  let first :=
    {| pending_homebuyer_id := next_id (pending_homebuyer_id <$> pending_homebuyers db);
       pending_homebuyer_email := first_email;
       pending_homebuyer_pending_couple := pending_couple_id pending_couple |} in
  let db2 := set_pending_homebuyers db1 (pending_homebuyers db ++ [first]) in
  let second :=
    {| pending_homebuyer_id :=
         next_id (pending_homebuyer_id <$> (pending_homebuyers db ++ [first]));
       pending_homebuyer_email := second_email;
       pending_homebuyer_pending_couple := pending_couple_id pending_couple |} in
  let db3 := set_pending_homebuyers db2 (pending_homebuyers db ++ [first; second]) in
  pending_couples db3 = pending_couples db ++ [pending_couple]
  ∧ pending_homebuyers db3 = pending_homebuyers db ++ [first; second]
  ∧ match first_error [PendingHomebuyer_insert_error db1 first;
                       send_email_invite first request;
                       PendingHomebuyer_insert_error db2 second;
                       send_email_invite second request] with
    | None =>
        HomeView_post request db =
          (Return (render "core/realtorHome.html"
                     (RealtorHomeContext (realtor_couple_data db3 [r]) [] [r])),
           db3)
    | Some e => HomeView_post request db = (Raise e, db)
    end.
Proof.
  intros uid Hc Hr Hform pending_couple db1 first db2 second db3.
  split; [done|]. split; [done|].
  unfold HomeView_post, bind, read. fold uid. rewrite Hc, Hr, Hform. simpl.
  unfold transaction_atomic, bind, read, lift. rewrite Hr. simpl.
  unfold PendingCouple_create, HomeView__invite_homebuyer, bind, read, write, ret.
  simpl.
  change {| pending_couple_id := next_id (pending_couple_id <$> pending_couples db);
            pending_couple_realtor := realtor_id r |} with pending_couple.
  change (set_pending_couples db (pending_couples db ++ [pending_couple])) with db1.
  change (pending_homebuyers db1) with (pending_homebuyers db).
  change {| pending_homebuyer_id :=
              next_id (pending_homebuyer_id <$> pending_homebuyers db);
            pending_homebuyer_email := first_email;
            pending_homebuyer_pending_couple :=
              next_id (pending_couple_id <$> pending_couples db) |} with first.
  change (set_pending_homebuyers db1 (pending_homebuyers db ++ [first])) with db2.
  destruct (PendingHomebuyer_insert_error db1 first) as [e|]; [done|].
  destruct (send_email_invite first request) as [e|]; [done|].
  simpl.
  change {| pending_homebuyer_id :=
              next_id (pending_homebuyer_id <$> pending_homebuyers db ++ [first]);
            pending_homebuyer_email := second_email;
            pending_homebuyer_pending_couple :=
              next_id (pending_couple_id <$> pending_couples db) |} with second.
  destruct (PendingHomebuyer_insert_error db2 second) as [e|]; [done|].
  destruct (send_email_invite second request) as [e|]; [done|].
  simpl. rewrite <- app_assoc. simpl.
  change (set_pending_homebuyers db2 (pending_homebuyers db ++ [first; second]))
    with db3.
  by rewrite coupleData_loops_app, House_filter_couple_nil.
Qed.

Lemma transaction_atomic_rollback {A : Type} (block : Stm DB A) db e db' :
  transaction_atomic block db = (Raise e, db') -> db' = db.
Proof.
  unfold transaction_atomic. destruct (block db) as [[a|e'] db1]; congruence.
Qed.

(** Whatever raises in the POST handler of the home view, the database is
    the one the request found. *)
Lemma HomeView_post_raise_unchanged db request e db' :
  HomeView_post request db = (Raise e, db') -> db' = db.
Proof.
  unfold HomeView_post, bind, read.
  destruct (truthy (Couple_filter_homebuyer__user db _)); [by intros [= _ <-]|].
  destruct (truthy (Realtor_filter_user db _)); [|by intros [= _ <-]].
  destruct (InviteHomebuyerForm_cleaned_data db (request_POST request))
    as [[first_email second_email]|].
  - destruct (transaction_atomic _ db) as [[[]|e'] db1] eqn:E.
    + unfold ret. discriminate.
    + intros [= _ <-]. by apply transaction_atomic_rollback in E.
  - unfold ret. discriminate.
Qed.

(** *** The merge of grades and categories *)

Lemma allocated_before_mono next next' i :
  (next ≤ next')%nat -> allocated_before next i -> allocated_before next' i.
Proof.
  unfold allocated_before. destruct (int_ref i); [done|]. intros ? [? ?]. split; [lia|done].
Qed.

(** A new integer is the object of an older one exactly when both hold the
    same small value. *)
Lemma PyLong_FromLong_spec v next c :
  allocated_before next c ->
  exists i next',
    PyLong_FromLong v next = (Return i, next')
    ∧ int_value i = v
    ∧ (next ≤ next')%nat
    ∧ allocated_before next' i
    ∧ py_is i c = is_small_int v && bool_decide (v = int_value c).
Proof.
  intros Hc. unfold PyLong_FromLong, py_is, allocated_before in *.
  destruct (is_small_int v) eqn:Hv.
  - eexists _, _. split; [reflexivity|]. simpl. repeat split; try done.
    destruct (int_ref c) as [w|a].
    + destruct Hc as [-> _]. apply bool_decide_ext. split; congruence.
    + rewrite bool_decide_false by done. destruct Hc as [_ Hc].
      symmetry. apply bool_decide_eq_false. intros ->. congruence.
  - eexists _, _. split; [reflexivity|]. simpl. repeat split; try done; try lia.
    destruct (int_ref c) as [w|a].
    + by rewrite bool_decide_false.
    + destruct Hc as [Ha _]. rewrite bool_decide_false; [done|]. intros [= ->]. lia.
Qed.

Lemma PyLong_FromLong_returns v next :
  exists i next',
    PyLong_FromLong v next = (Return i, next')
    ∧ int_value i = v ∧ (next ≤ next')%nat ∧ allocated_before next' i.
Proof.
  unfold PyLong_FromLong, allocated_before.
  destruct (is_small_int v) eqn:Hv; eexists _, _; (split; [reflexivity|]); simpl;
    repeat split; try done; lia.
Qed.

Lemma from_db_all_spec rows next :
  exists instances next',
    from_db_all rows next = (Return instances, next')
    ∧ (next ≤ next')%nat
    ∧ instance_row <$> instances = rows
    ∧ Forall (fun c => allocated_before next' (instance_id c)
                       ∧ int_value (instance_id c) = category_id (instance_row c))
        instances.
Proof.
  revert next. induction rows as [|row rows IH]; intros next.
  - eexists [], next. by repeat split.
  - simpl. unfold bind, Category_from_db, bind.
    destruct (PyLong_FromLong_returns (category_id row) next)
      as (i & next1 & -> & Hval & Hle & Halloc).
    unfold ret at 1.
    destruct (IH next1) as (instances & next2 & -> & Hle2 & Hrows & Hall).
    unfold ret.
    eexists _, _. split; [reflexivity|]. split; [lia|].
    split; [by rewrite fmap_cons, Hrows|].
    constructor; [|done]. simpl. split; [|done].
    by apply (allocated_before_mono next1).
Qed.

Lemma Grade_category_spec db grade next c :
  allocated_before next c ->
  forall gc next',
    Grade_category db grade next = (Return gc, next') ->
    (next ≤ next')%nat
    ∧ py_is (instance_id gc) c
      = is_small_int (grade_category grade)
        && bool_decide (grade_category grade = int_value c).
Proof.
  intros Hc gc next'. unfold Grade_category, bind, lift.
  destruct (qs_get (Category_filter_id db (grade_category grade))) as [row|e] eqn:Hrow;
    [|discriminate].
  assert (category_id row = grade_category grade) as Hid.
  { unfold qs_get in Hrow.
    destruct (Category_filter_id db (grade_category grade)) as [|x [|y l]] eqn:E;
      try discriminate.
    injection Hrow as ->.
    assert (row ∈ Category_filter_id db (grade_category grade)) as Hin
      by (rewrite E; left).
    by apply list_elem_of_filter in Hin as [? _]. }
  unfold Category_from_db, bind.
  destruct (PyLong_FromLong_spec (category_id row) next c Hc)
    as (i & next1 & -> & Hval & Hle & _ & His).
  unfold ret. intros [= <- <-]. simpl. split; [done|]. by rewrite <- Hid.
Qed.

Lemma find_grade_spec db category grades next score next' :
  allocated_before next (instance_id category) ->
  find_grade db category grades next = (Return score, next') ->
  (next ≤ next')%nat
  ∧ score = merged_score grades (int_value (instance_id category)).
Proof.
  revert next. induction grades as [|grade rest IH]; intros next Hc; simpl.
  - unfold ret. intros [= <- <-]. split; [done|].
    unfold merged_score. by destruct (is_small_int _).
  - unfold bind.
    destruct (Grade_category db grade next) as [[gc|e] next1] eqn:Hgc; [|discriminate].
    destruct (Grade_category_spec db grade next _ Hc gc next1 Hgc) as [Hle His].
    rewrite His. unfold merged_score. rewrite filter_cons.
    destruct (is_small_int (grade_category grade)) eqn:Hsmall; simpl.
    + case_bool_decide as E.
      * unfold ret. intros [= <- <-]. split; [done|].
        rewrite <- E, Hsmall. by rewrite decide_True.
      * intros Hrest.
        apply IH in Hrest as [Hle' ->]; [|by apply (allocated_before_mono next)].
        split; [lia|]. unfold merged_score. by rewrite decide_False.
    + intros Hrest.
      apply IH in Hrest as [Hle' ->]; [|by apply (allocated_before_mono next)].
      split; [lia|]. unfold merged_score.
      destruct (decide (grade_category grade = int_value (instance_id category)))
        as [E|E]; [|done].
      by rewrite <- E, Hsmall.
Qed.

Lemma merge_grades_spec db graded instances grades next result next' :
  Forall (fun c => allocated_before next (instance_id c)) instances ->
  merge_grades db graded instances grades next = (Return result, next') ->
  result = graded
           ++ ((fun c => (instance_row c,
                          merged_score grades (int_value (instance_id c))))
                 <$> instances).
Proof.
  revert graded next. induction instances as [|c instances IH];
    intros graded next Hall; simpl.
  - unfold ret. intros [= <- <-]. by rewrite app_nil_r.
  - unfold bind.
    destruct (find_grade db c grades next) as [[score|e] next1] eqn:Hfind;
      [|discriminate].
    apply Forall_cons in Hall as [Hc Hall].
    apply find_grade_spec in Hfind as [Hle ->]; [|done].
    intros Hrest. apply IH in Hrest.
    + rewrite Hrest. by rewrite <- app_assoc.
    + eapply Forall_impl; [exact Hall|]. intros x Hx.
      by apply (allocated_before_mono next).
Qed.

(** What the read path renders, whenever it renders: one pair per category
    of the caller's couples, in the order of the categories, each with its
    [merged_score] over the grades of the caller for the house. *)
Lemma EvalView_get_graded db request hid template couple house graded sc :
  EvalView_get db request hid
    = Return (render template (HouseEvalContext couple house graded sc)) ->
  exists grades,
    Grade_filter_house_role db house (role_object (request_user request))
      = Return grades
    ∧ graded
      = (fun c => (c, merged_score grades (category_id c)))
          <$> Category_filter_couple db
                (Couple_filter_homebuyer__user db (user_id (request_user request)))
    ∧ graded.*1
      = Category_filter_couple db
          (Couple_filter_homebuyer__user db (user_id (request_user request))).
Proof.
  unfold EvalView_get.
  destruct (get_object_or_404 (House_filter_id db hid)) as [house'|e]; [|discriminate].
  simpl.
  destruct (Grade_filter_house_role db house' _) as [grades|e] eqn:Hgrades;
    [|discriminate].
  simpl. unfold bind.
  destruct (from_db_all_spec
              (Category_filter_couple db
                 (Couple_filter_homebuyer__user db (user_id (request_user request))))
              0%nat)
    as (instances & next1 & -> & _ & Hrows & Hall).
  destruct (merge_grades db [] instances grades next1) as [[result|e] next2] eqn:Hmerge;
    [|discriminate].
  simpl.
  destruct EvalView__score_context as [sc'|e]; [|discriminate].
  simpl. intros [= <- <- <- <- <-].
  apply merge_grades_spec in Hmerge.
  2:{ eapply Forall_impl; [exact Hall|]. by intros c [? _]. }
  exists grades. split; [done|].
  assert (result = (fun c => (c, merged_score grades (category_id c)))
                     <$> (instance_row <$> instances)) as ->.
  { rewrite Hmerge. simpl. rewrite <- list_fmap_compose.
    apply Forall_fmap_ext_1. eapply Forall_impl; [exact Hall|].
    intros c [_ Hval]. simpl. by rewrite Hval. }
  rewrite Hrows. split; [done|].
  rewrite <- list_fmap_compose. apply list_fmap_id.
Qed.

Lemma find_grade_returns db category grades next :
  (forall g, g ∈ grades -> exists c, Category_filter_id db (grade_category g) = [c]) ->
  exists score next', find_grade db category grades next = (Return score, next').
Proof.
  revert next. induction grades as [|grade rest IH]; intros next Hres; simpl.
  - by eexists _, _.
  - unfold bind, Grade_category, bind, lift.
    destruct (Hres grade) as [c Hc]; [left|]. rewrite Hc. simpl.
    unfold Category_from_db, bind.
    destruct (PyLong_FromLong_returns (category_id c) next) as (i & next1 & -> & _).
    unfold ret at 1. simpl.
    destruct (py_is i (instance_id category)).
    + by eexists _, _.
    + apply IH. intros g Hg. apply Hres. by right.
Qed.

Lemma merge_grades_returns db graded instances grades next :
  (forall g, g ∈ grades -> exists c, Category_filter_id db (grade_category g) = [c]) ->
  exists result next',
    merge_grades db graded instances grades next = (Return result, next').
Proof.
  intros Hres. revert graded next.
  induction instances as [|c instances IH]; intros graded next; simpl.
  - by eexists _, _.
  - unfold bind.
    destruct (find_grade_returns db c grades next Hres) as (score & next1 & ->).
    apply IH.
Qed.

(** The read path renders for a Homebuyer and a house that exists, when the
    choice set is not empty and the grades point to existing categories. *)
Lemma EvalView_get_returns db request hid h house :
  role_object (request_user request) = Some (RoleHomebuyer h) ->
  House_filter_id db hid = [house] ->
  score_field_choices ≠ [] ->
  grade_categories_resolve db ->
  exists graded sc,
    EvalView_get db request hid
    = Return (render "core/houseEval.html"
                (HouseEvalContext
                   (Couple_filter_homebuyer__user db (user_id (request_user request)))
                   house graded sc)).
Proof.
  intros Hrole Hhouse Hchoices Hres.
  unfold EvalView_get, get_object_or_404. rewrite Hhouse, Hrole. simpl.
  unfold bind.
  destruct (from_db_all_spec
              (Category_filter_couple db
                 (Couple_filter_homebuyer__user db (user_id (request_user request))))
              0%nat)
    as (instances & next1 & -> & _).
  destruct (merge_grades_returns db [] instances
              (Grade_filter_house_homebuyer db (house_id house) (homebuyer_id h)) next1)
    as (result & next2 & ->).
  { intros g Hg. apply Hres.
    by apply list_elem_of_filter in Hg as [_ ?]. }
  simpl.
  destruct (EvalView__score_context_returns Hchoices) as (sc & -> & _).
  simpl. by eexists _, _.
Qed.

(** On the keys that are shared small integers the merge finds the score of
    the first grade for the category; on the others it finds none. *)
Lemma merged_score_small grades cid :
  (-5 ≤ cid ≤ 256)%Z ->
  merged_score grades cid
  = grade_score <$> head (filter (fun g => grade_category g = cid) grades).
Proof.
  intros Hsmall. unfold merged_score, is_small_int. by rewrite bool_decide_true.
Qed.

Lemma merged_score_large grades cid :
  (cid < -5 ∨ 256 < cid)%Z -> merged_score grades cid = None.
Proof.
  intros Hlarge. unfold merged_score, is_small_int.
  rewrite bool_decide_false; [done|lia].
Qed.

(** *** More on the write path *)

Lemma filter_unsaved (P : Grade -> Prop) `{!forall x, Decision (P x)}
    (g g' : Grade) (l : list Grade) :
  ¬ P g -> ¬ P g' ->
  (forall x, x ∈ l -> grade_id x = grade_id g -> x = g) ->
  filter P ((fun x => if bool_decide (grade_id x = grade_id g) then g' else x) <$> l)
  = filter P l.
Proof.
  intros Hg Hg' Huniq. induction l as [|x l IH]; [done|].
  rewrite fmap_cons, !filter_cons.
  assert (forall y, y ∈ l -> grade_id y = grade_id g -> y = g) as Hl
    by (intros y Hy; apply Huniq; by right).
  specialize (IH Hl).
  case_bool_decide as E.
  - assert (x = g) as -> by (apply Huniq; [left|done]).
    by rewrite !decide_False.
  - by rewrite IH.
Qed.

Ltac raised :=
  let H := fresh in
  intros H; cbv beta iota delta [throw ret] in H; discriminate H.

(** The upsert raises for several rows of the triple, before any write, or
    for a score the database cannot hold, and then nothing is written. *)
Lemma Grade_update_or_create_raise hb cat house score db e db' :
  Grade_update_or_create hb cat house score db = (Raise e, db') ->
  db' = db
  ∧ (e = MultipleObjectsReturned
     ∨ (e = OverflowError ∧ Grade_score_storable score = false)).
Proof.
  unfold Grade_update_or_create, bind, read.
  destruct (Grade_filter db hb cat house) as [|old [|g2 rest]].
  - unfold Grade_create. destruct (Grade_score_storable score) eqn:Hst.
    + unfold bind, read, write, ret. discriminate.
    + cbv beta iota delta [throw]. intros [= <- <-]. auto.
  - unfold Grade_save. simpl. destruct (Grade_score_storable score) eqn:Hst.
    + unfold bind, read, write, ret. discriminate.
    + cbv beta iota delta [throw]. intros [= <- <-]. auto.
  - unfold throw. intros [= <- <-]. auto.
Qed.

Lemma Grade_update_or_create_return_storable hb cat house score db r db' :
  Grade_update_or_create hb cat house score db = (Return r, db') ->
  Grade_score_storable score = true.
Proof.
  destruct (Grade_score_storable score) eqn:Hst; [done|].
  unfold Grade_update_or_create, bind, read.
  destruct (Grade_filter db hb cat house) as [|old [|g2 rest]].
  - unfold Grade_create. rewrite Hst. raised.
  - unfold Grade_save. simpl. rewrite Hst. raised.
  - raised.
Qed.

Lemma Grade_update_or_create_return hb cat house score db g created db' :
  NoDup (grade_id <$> grades db) ->
  Grade_update_or_create hb cat house score db = (Return (g, created), db') ->
  same_but_grades db db'
  ∧ Grade_filter db' hb cat house = [g]
  ∧ grade_score g = score
  ∧ NoDup (grade_id <$> grades db')
  ∧ (forall hb' cat' house',
       (hb', cat', house') ≠ (hb, cat, house) ->
       Grade_filter db' hb' cat' house' = Grade_filter db hb' cat' house').
Proof.
  intros Hnd Hrun.
  assert (length (Grade_filter db hb cat house) ≤ 1)%nat as Hlen.
  { revert Hrun. unfold Grade_update_or_create, bind, read.
    destruct (Grade_filter db hb cat house) as [|old [|g2 rest]]; simpl; try lia.
    unfold throw. discriminate. }
  pose proof (Grade_update_or_create_return_storable _ _ _ _ _ _ _ Hrun) as Hstorable.
  destruct (Grade_update_or_create_spec db hb cat house score Hstorable Hnd Hlen)
    as (g0 & created0 & gs & Hrun0 & Hone & Hscore & Hnd' & Hcase).
  rewrite Hrun in Hrun0. injection Hrun0 as -> -> ->.
  split; [done|]. split; [done|]. split; [done|]. split; [done|].
  intros hb' cat' house' Hne. unfold Grade_filter. simpl.
  revert Hrun. unfold Grade_update_or_create, bind, read.
  destruct (Grade_filter db hb cat house) as [|old [|g2 rest]] eqn:E.
  - destruct Hcase as [_ ->]. intros _.
    rewrite filter_app, filter_cons, decide_False, filter_nil, app_nil_r; [done|].
    assert (g0 ∈ Grade_filter (set_grades db (grades db ++ [g0])) hb cat house) as Hin
      by (rewrite Hone; left).
    apply list_elem_of_filter in Hin as [(H1 & H2 & H3) _].
    intros (E1 & E2 & E3). apply Hne. congruence.
  - unfold Grade_save. simpl. rewrite Hstorable.
    unfold bind, read, write, ret. simpl. intros [= _ _ Hgs].
    rewrite <- Hgs.
    assert (old ∈ Grade_filter db hb cat house) as Hold by (rewrite E; left).
    apply list_elem_of_filter in Hold as [(H1 & H2 & H3) Hold].
    apply filter_unsaved.
    + intros (E1 & E2 & E3). apply Hne. congruence.
    + simpl. intros (E1 & E2 & E3). apply Hne. congruence.
    + intros x Hx Hid. by apply (NoDup_fmap_eq grade_id (grades db)).
  - simpl in Hlen. lia.
Qed.

(** What a submission that returns has found on its way. *)
Lemma EvalView_post_return db request hid response db' :
  EvalView_post request hid db = (Return response, db') ->
  exists house category hb id cid score v g created,
    request_is_ajax request = true
    ∧ House_filter_id db hid = [house]
    ∧ request_POST request !! "category" = Some id
    ∧ request_POST request !! "score" = Some score
    ∧ py_int id = Some cid
    ∧ Category_filter_id db cid = [category]
    ∧ py_int score = Some v
    ∧ Homebuyer_first (Homebuyer_filter_user_id db (user_id (request_user request)))
      = Some hb
    ∧ Grade_update_or_create (homebuyer_id hb) (category_id category) (house_id house)
        v db = (Return (g, created), db')
    ∧ response = acknowledgment id score.
Proof.
  unfold EvalView_post.
  destruct (request_is_ajax request) eqn:Hajax; simpl; [|raised].
  unfold bind, read, lift, get_object_or_404, POST_getitem, Category_get_id, qs_get.
  destruct (House_filter_id db hid) as [|house [|house2 houses]] eqn:Hhouse;
    try raised.
  destruct (request_POST request !! "category") as [id|] eqn:Hid; [|raised].
  destruct (request_POST request !! "score") as [score|] eqn:Hscore; [|raised].
  destruct (py_int id) as [cid|] eqn:Hcid; [|raised].
  destruct (Category_filter_id db cid) as [|category [|category2 cats]] eqn:Hcat;
    try raised.
  destruct (py_int score) as [v|] eqn:Hv; [|raised].
  destruct (Homebuyer_first _) as [hb|] eqn:Hhb; [|raised].
  destruct (Grade_update_or_create (homebuyer_id hb) (category_id category)
              (house_id house) v db) as [[[g created]|e] db1] eqn:Hrun; [|raised].
  unfold ret. intros [= <- <-].
  by exists house, category, hb, id, cid, score, v, g, created.
Qed.

Lemma EvalView_post_raise db request hid e db' :
  EvalView_post request hid db = (Raise e, db') -> db' = db.
Proof.
  unfold EvalView_post.
  destruct (request_is_ajax request); simpl; [|cbv beta delta [throw]; by intros [= _ <-]].
  unfold bind, read, lift, get_object_or_404, POST_getitem, Category_get_id, qs_get.
  destruct (House_filter_id db hid) as [|house [|house2 houses]];
    try (by intros [= _ <-]).
  destruct (request_POST request !! "category") as [id|]; [|by intros [= _ <-]].
  destruct (request_POST request !! "score") as [score|]; [|by intros [= _ <-]].
  destruct (py_int id) as [cid|]; [|by intros [= _ <-]].
  destruct (Category_filter_id db cid) as [|category [|category2 cats]];
    try (by intros [= _ <-]).
  destruct (py_int score) as [v|]; [|by intros [= _ <-]].
  destruct (Homebuyer_first _) as [hb|]; [|by intros [= _ <-]].
  destruct (Grade_update_or_create (homebuyer_id hb) (category_id category)
              (house_id house) v db) as [[[g created]|e'] db1] eqn:Hrun.
  - unfold ret. discriminate.
  - intros [= _ <-]. by apply Grade_update_or_create_raise in Hrun as [? _].
Qed.

(** X: whatever the write path raises, it has written nothing. *)
Theorem EvalView_post_raise_unchanged db request hid e db' :
  EvalView_post request hid db = (Raise e, db') -> db' = db.
Proof. apply EvalView_post_raise. Qed.

(** X: a submission that returns writes grades only, and only the grades of
    its own triple, the homebuyer record of the user, the category named in
    the payload and the house of the path: that triple has exactly one row
    afterwards, the rows selected for any other triple are the rows selected
    before, and the keys of the table stay distinct. *)
Theorem EvalView_post_frame db request hid response db' :
  NoDup (grade_id <$> grades db) ->
  EvalView_post request hid db = (Return response, db') ->
  realtors db' = realtors db ∧ couples db' = couples db
  ∧ homebuyers db' = homebuyers db ∧ houses db' = houses db
  ∧ categories db' = categories db
  ∧ pending_couples db' = pending_couples db
  ∧ pending_homebuyers db' = pending_homebuyers db
  ∧ NoDup (grade_id <$> grades db')
  ∧ exists hb category house id,
      Homebuyer_first (Homebuyer_filter_user_id db (user_id (request_user request)))
        = Some hb
      ∧ House_filter_id db hid = [house]
      ∧ request_POST request !! "category" = Some id
      ∧ py_int id = Some (category_id category)
      ∧ length (Grade_filter db' (homebuyer_id hb) (category_id category)
                  (house_id house)) = 1%nat
      ∧ forall hb' cat' house',
          (hb', cat', house') ≠ (homebuyer_id hb, category_id category, house_id house) ->
          Grade_filter db' hb' cat' house' = Grade_filter db hb' cat' house'.
Proof.
  intros Hnd Hpost.
  apply EvalView_post_return in Hpost
    as (house & category & hb & id & cid & score & v & g & created
        & _ & Hhouse & Hid & _ & Hcid & Hcat & _ & Hhb & Hrun & _).
  apply Grade_update_or_create_return in Hrun
    as (Hsame & Hone & _ & Hnd' & Hframe); [|done].
  unfold same_but_grades in Hsame. rewrite Hsame. simpl.
  repeat split; try done.
  exists hb, category, house, id.
  assert (category_id category = cid) as Hkey.
  { assert (category ∈ Category_filter_id db cid) as Hin by (rewrite Hcat; left).
    by apply list_elem_of_filter in Hin as [? _]. }
  split; [done|]. split; [done|]. split; [done|].
  split; [by rewrite Hkey|]. split.
  - rewrite Hsame in Hone. by rewrite Hone.
  - intros hb' cat' house' Hne. rewrite <- Hsame. by apply Hframe.
Qed.

(** X: the write path keeps the table free of duplicates: from a table with
    distinct keys and at most one grade per triple, a submission that
    returns leaves a table with distinct keys and at most one grade per
    triple. *)
Theorem EvalView_post_keeps_unique db request hid response db' :
  NoDup (grade_id <$> grades db) ->
  unique_per_triple db ->
  EvalView_post request hid db = (Return response, db') ->
  NoDup (grade_id <$> grades db') ∧ unique_per_triple db'.
Proof.
  intros Hnd Huniq Hpost.
  apply EvalView_post_return in Hpost
    as (house & category & hb & id & cid & score & v & g & created
        & _ & _ & _ & _ & _ & _ & _ & _ & Hrun & _).
  apply Grade_update_or_create_return in Hrun
    as (_ & Hone & _ & Hnd' & Hframe); [|done].
  split; [done|]. intros hb' cat' house'.
  destruct (decide ((hb', cat', house')
                    = (homebuyer_id hb, category_id category, house_id house)))
    as [[= -> -> ->]|Hne].
  - by rewrite Hone.
  - rewrite Hframe by done. apply Huniq.
Qed.

(** The write path, once its lookups have succeeded, is the upsert. *)
Lemma EvalView_post_run db request hid house category hb id cid score v :
  request_is_ajax request = true ->
  House_filter_id db hid = [house] ->
  request_POST request !! "category" = Some id ->
  request_POST request !! "score" = Some score ->
  py_int id = Some cid ->
  Category_filter_id db cid = [category] ->
  py_int score = Some v ->
  Homebuyer_first (Homebuyer_filter_user_id db (user_id (request_user request)))
    = Some hb ->
  EvalView_post request hid db
  = match Grade_update_or_create (homebuyer_id hb) (category_id category)
            (house_id house) v db with
    | (Return _, db') => (Return (acknowledgment id score), db')
    | (Raise e, db') => (Raise e, db')
    end.
Proof.
  intros Hajax Hhouse Hid Hscore Hcid Hcat Hv Hhb.
  unfold EvalView_post. rewrite Hajax. simpl.
  unfold bind, read, lift, get_object_or_404, POST_getitem, Category_get_id.
  rewrite Hhouse, Hid, Hscore, Hcid, Hcat, Hv, Hhb. simpl.
  by destruct (Grade_update_or_create _ _ _ _ db) as [[[g created]|e] db'].
Qed.

Lemma Grade_update_or_create_same db hb cat house g :
  Grade_score_storable (grade_score g) = true ->
  NoDup (grade_id <$> grades db) ->
  Grade_filter db hb cat house = [g] ->
  Grade_update_or_create hb cat house (grade_score g) db = (Return (g, false), db).
Proof.
  intros Hstorable Hnd Hone. unfold Grade_update_or_create, bind, read. rewrite Hone.
  unfold Grade_save. simpl. rewrite Hstorable. unfold bind, read, write, ret.
  assert (g ∈ grades db) as Hin.
  { assert (g ∈ Grade_filter db hb cat house) as H by (rewrite Hone; left).
    by apply list_elem_of_filter in H as [_ ?]. }
  assert ({| grade_id := grade_id g; grade_homebuyer := grade_homebuyer g;
             grade_category := grade_category g; grade_house := grade_house g;
             grade_score := grade_score g |} = g) as -> by (by destruct g).
  f_equal.
  assert ((fun x => if bool_decide (grade_id x = grade_id g) then g else x) <$> grades db
          = grades db) as ->.
  { rewrite <- (list_fmap_id (grades db)) at 2. apply list_fmap_ext.
    intros i x Hx. simpl. case_bool_decide as E; [|done].
    symmetry. apply (NoDup_fmap_eq grade_id (grades db)); try done.
    by apply list_elem_of_lookup_2 in Hx. }
  by destruct db.
Qed.

(** X: the write path is idempotent: a submission that returned, sent again,
    returns the same acknowledgment and leaves the database as the first
    left it. *)
Theorem EvalView_post_idempotent db request hid response db1 :
  NoDup (grade_id <$> grades db) ->
  EvalView_post request hid db = (Return response, db1) ->
  EvalView_post request hid db1 = (Return response, db1).
Proof.
  intros Hnd Hpost.
  apply EvalView_post_return in Hpost
    as (house & category & hb & id & cid & score & v & g & created
        & Hajax & Hhouse & Hid & Hscore & Hcid & Hcat & Hv & Hhb & Hrun & ->).
  pose proof (Grade_update_or_create_return_storable _ _ _ _ _ _ _ Hrun) as Hstorable.
  apply Grade_update_or_create_return in Hrun
    as (Hsame & Hone & Hg & Hnd1 & _); [|done].
  unfold same_but_grades in Hsame.
  rewrite (EvalView_post_run db1 request hid house category hb id cid score v);
    try done; try (by rewrite Hsame).
  subst v. by rewrite (Grade_update_or_create_same db1 _ _ _ g).
Qed.

Lemma grade_categories_resolve_after db hb cat house v g created db' category :
  NoDup (grade_id <$> grades db) ->
  grade_categories_resolve db ->
  Category_filter_id db cat = [category] ->
  Grade_update_or_create hb cat house v db = (Return (g, created), db') ->
  grade_categories_resolve db'.
Proof.
  intros Hnd Hres Hcat Hrun.
  apply Grade_update_or_create_return in Hrun
    as (Hsame & Hone & _ & _ & Hframe); [|done].
  unfold same_but_grades in Hsame.
  intros g0 Hg0.
  assert (Category_filter_id db' (grade_category g0)
          = Category_filter_id db (grade_category g0)) as ->
    by (by rewrite Hsame).
  destruct (decide ((grade_homebuyer g0, grade_category g0, grade_house g0)
                    = (hb, cat, house))) as [[= E1 E2 E3]|Hne].
  - rewrite E2. by exists category.
  - apply Hres.
    assert (g0 ∈ Grade_filter db' (grade_homebuyer g0) (grade_category g0)
                   (grade_house g0)) as Hin
      by (apply list_elem_of_filter; done).
    rewrite Hframe in Hin by done.
    by apply list_elem_of_filter in Hin as [_ ?].
Qed.

(** X: a score submitted on the write path is the score the read path then
    shows for that category, whatever integer it is: for a homebuyer whose
    role object is the record the write path picks, a category of the
    caller's couple with a key from -5 to 256, distinct grade keys, grades
    whose categories exist and a non-empty choice set, the page rendered
    after the submission pairs the category with the submitted score. *)
Theorem EvalView_post_then_get db post_request get_request hid response db'
    h category id score v :
  NoDup (grade_id <$> grades db) ->
  grade_categories_resolve db ->
  score_field_choices ≠ [] ->
  EvalView_post post_request hid db = (Return response, db') ->
  request_POST post_request !! "category" = Some id ->
  py_int id = Some (category_id category) ->
  request_POST post_request !! "score" = Some score ->
  py_int score = Some v ->
  user_id (request_user get_request) = user_id (request_user post_request) ->
  role_object (request_user get_request) = Some (RoleHomebuyer h) ->
  Homebuyer_first (Homebuyer_filter_user_id db (user_id (request_user post_request)))
    = Some h ->
  (-5 ≤ category_id category ≤ 256)%Z ->
  category ∈ Category_filter_couple db
               (Couple_filter_homebuyer__user db (user_id (request_user get_request))) ->
  exists couple house graded sc,
    EvalView_get db' get_request hid
    = Return (render "core/houseEval.html" (HouseEvalContext couple house graded sc))
    ∧ (category, Some v) ∈ graded.
Proof.
  intros Hnd Hres Hchoices Hpost Hid Hcid Hscore Hv Huser Hrole Hfirst Hsmall Hmine.
  apply EvalView_post_return in Hpost
    as (house & category' & hb & id' & cid' & score' & v' & g & created
        & _ & Hhouse & Hid' & Hscore' & Hcid' & Hcat & Hv' & Hhb & Hrun & _).
  rewrite Hid in Hid'. injection Hid' as <-.
  rewrite Hscore in Hscore'. injection Hscore' as <-.
  rewrite Hcid in Hcid'. injection Hcid' as <-.
  rewrite Hv in Hv'. injection Hv' as <-.
  rewrite Hfirst in Hhb. injection Hhb as <-.
  assert (category' = category) as ->.
  { assert (category ∈ Category_filter_id db (category_id category)) as Hin.
    { apply list_elem_of_filter. split; [done|].
      by apply list_elem_of_filter in Hmine as [_ ?]. }
    rewrite Hcat in Hin. by apply list_elem_of_singleton in Hin. }
  pose proof (grade_categories_resolve_after _ _ _ _ _ _ _ _ _ Hnd Hres Hcat Hrun)
    as Hres'.
  apply Grade_update_or_create_return in Hrun
    as (Hsame & Hone & Hg & _ & _); [|done].
  unfold same_but_grades in Hsame.
  assert (House_filter_id db' hid = [house]) as Hhouse' by (by rewrite Hsame).
  destruct (EvalView_get_returns db' get_request hid h house Hrole Hhouse' Hchoices Hres')
    as (graded & sc & Hget).
  eexists _, house, graded, sc. split; [exact Hget|].
  apply EvalView_get_graded in Hget as (grades0 & Hgrades & -> & _).
  rewrite Hrole in Hgrades. simpl in Hgrades. injection Hgrades as <-.
  apply list_elem_of_fmap. exists category. split.
  - f_equal. rewrite merged_score_small by done.
    unfold Grade_filter_house_homebuyer. rewrite list_filter_filter.
    erewrite list_filter_iff; [unfold Grade_filter in Hone; rewrite Hone|].
    + simpl. by rewrite Hg.
    + intros x. simpl. split; intros (? & ? & ?); repeat split; done.
  - by rewrite Hsame.
Qed.

(** *** More on the permission gate *)

Lemma qs_get_raise {A : Type} (qs : list A) e :
  qs_get qs = Raise e -> e = DoesNotExist ∨ e = MultipleObjectsReturned.
Proof. destruct qs as [|x [|y l]]; simpl; intros [=]; auto. Qed.

Lemma EvalView__permission_check_true db request role hid :
  EvalView__permission_check hid db request role = Return true ->
  exists h couple house,
    role = RoleHomebuyer h
    ∧ Homebuyer_couple db h = Return couple
    ∧ house ∈ houses db
    ∧ house_id house = hid
    ∧ house_couple house = couple_id couple.
Proof.
  unfold EvalView__permission_check. destruct role as [h|r]; [|discriminate].
  fold (Homebuyer_couple db h).
  destruct (Homebuyer_couple db h) as [couple|e] eqn:Hcouple; [|discriminate]. simpl.
  destruct (filter _ (houses db)) as [|house l] eqn:E; [discriminate|]. intros _.
  assert (house ∈ filter (fun x => house_couple x = couple_id couple ∧ house_id x = hid)
                    (houses db)) as Hin by (rewrite E; left).
  apply list_elem_of_filter in Hin as [[Hc Hid] Hin].
  by exists h, couple, house.
Qed.

(** The dispatch of the evaluation view either admits the request and runs
    the handler of its method, or answers without running one. *)
Lemma EvalView_dispatch_cases request hid db :
  (EvalView_admits db request hid
   ∧ EvalView_dispatch request hid db
     = View_dispatch (fun db => (EvalView_get db request hid, db))
         (EvalView_post request hid) request db)
  ∨ (EvalView_dispatch request hid db = (Return (redirect "login"), db)
     ∧ is_authenticated (request_user request) = false)
  ∨ (EvalView_dispatch request hid db = (Raise PermissionDenied, db))
  ∨ (EvalView_dispatch request hid db = (Raise DoesNotExist, db))
  ∨ (EvalView_dispatch request hid db = (Raise MultipleObjectsReturned, db)).
Proof.
  unfold EvalView_dispatch, BaseView_dispatch.
  destruct (is_authenticated (request_user request)) eqn:Hauth; simpl;
    [|right; left; by split].
  destruct (role_object (request_user request)) as [role|] eqn:Hrole;
    [|right; right; by left].
  destruct (bool_decide _); [|right; right; by left].
  unfold bind, read, lift.
  destruct (EvalView__permission_check hid db request role) as [[]|e] eqn:Hcheck.
  - left. apply EvalView__permission_check_true in Hcheck
      as (h & couple & house & -> & Hcouple & Hin & Hid & Hc).
    split; [|done]. split; [done|]. by exists h, couple, house.
  - right; right; by left.
  - right; right; right.
    assert (e = DoesNotExist ∨ e = MultipleObjectsReturned) as [-> | ->].
    { revert Hcheck. unfold EvalView__permission_check.
      destruct role as [h|r]; [|discriminate].
      destruct (qs_get _) as [couple|e'] eqn:E; [discriminate|].
      simpl. intros [= <-]. by apply qs_get_raise in E. }
    + by left.
    + by right.
Qed.

(** X: the handlers of the evaluation view run only behind the gate: when
    the dispatch returns a response to a logged-in caller, the caller's role
    is a Homebuyer whose couple owns a house with the requested key.  No
    page and no acknowledgment goes to a realtor, to a user without a role
    or to a homebuyer of another couple. *)
Theorem EvalView_dispatch_returns_behind_gate request hid db response db' :
  is_authenticated (request_user request) = true ->
  EvalView_dispatch request hid db = (Return response, db') ->
  EvalView_admits db request hid.
Proof.
  intros Hauth Hrun.
  destruct (EvalView_dispatch_cases request hid db)
    as [[Hadmits _]|[[_ Hanon]|[H|[H|H]]]]; try done; congruence.
Qed.

(** X: the dispatch of the evaluation view changes the database only for an
    AJAX POST of an admitted caller. *)
Theorem EvalView_dispatch_writes_behind_gate request hid db :
  (EvalView_dispatch request hid db).2 ≠ db ->
  EvalView_admits db request hid
  ∧ request_method request = POST
  ∧ request_is_ajax request = true.
Proof.
  intros Hchanged.
  destruct (EvalView_dispatch_cases request hid db)
    as [[Hadmits Hrun]|[[H _]|[H|[H|H]]]];
    try (rewrite H in Hchanged; by destruct Hchanged).
  rewrite Hrun in Hchanged. unfold View_dispatch in Hchanged.
  destruct (request_method request); try (by destruct Hchanged).
  split; [done|]. split; [done|].
  destruct (request_is_ajax request) eqn:Hajax; [done|].
  unfold EvalView_post in Hchanged. rewrite Hajax in Hchanged. by destruct Hchanged.
Qed.

(** *** Exceptions of the evaluation view *)

Lemma find_grade_raise db category grades next e next' :
  find_grade db category grades next = (Raise e, next') ->
  e = DoesNotExist ∨ e = MultipleObjectsReturned.
Proof.
  revert next. induction grades as [|grade rest IH]; intros next; simpl.
  - unfold ret. discriminate.
  - unfold bind, Grade_category, bind, lift.
    destruct (qs_get (Category_filter_id db (grade_category grade))) as [row|e0] eqn:E.
    + unfold Category_from_db, bind.
      destruct (PyLong_FromLong_returns (category_id row) next) as (i & next1 & -> & _).
      unfold ret at 1. simpl.
      destruct (py_is i (instance_id category)); [unfold ret; discriminate|].
      apply IH.
    + intros [= <- _]. by apply qs_get_raise in E.
Qed.

Lemma merge_grades_raise db graded instances grades next e next' :
  merge_grades db graded instances grades next = (Raise e, next') ->
  e = DoesNotExist ∨ e = MultipleObjectsReturned.
Proof.
  revert graded next. induction instances as [|c instances IH]; intros graded next; simpl.
  - unfold ret. discriminate.
  - unfold bind.
    destruct (find_grade db c grades next) as [[score|e0] next1] eqn:E.
    + apply IH.
    + intros [= <- _]. by apply find_grade_raise in E.
Qed.

Lemma EvalView__score_context_raise e :
  EvalView__score_context = Raise e -> score_field_choices = [] ∧ e = ValueError.
Proof.
  destruct score_field_choices as [|kv l] eqn:E.
  - unfold EvalView__score_context. rewrite E. unfold py_dict, dict_keys. simpl.
    rewrite map_to_list_empty. simpl. by intros [= <-].
  - intros Hraise.
    destruct (EvalView__score_context_returns) as (sc & Hsc & _); [by rewrite E|].
    rewrite Hsc in Hraise. discriminate.
Qed.

Lemma EvalView_get_raise db request hid e :
  EvalView_get db request hid = Raise e ->
  (House_filter_id db hid = [] ∧ e = Http404)
  ∨ e = MultipleObjectsReturned ∨ e = DoesNotExist ∨ e = ValueError.
Proof.
  unfold EvalView_get, get_object_or_404, qs_get.
  destruct (House_filter_id db hid) as [|house [|house2 l]] eqn:Hhouse; simpl.
  - intros [= <-]. by left.
  - destruct (Grade_filter_house_role db house _) as [grades|e0] eqn:Hgrades; simpl.
    + unfold bind.
      destruct (from_db_all_spec
                  (Category_filter_couple db
                     (Couple_filter_homebuyer__user db (user_id (request_user request))))
                  0%nat)
        as (instances & next1 & -> & _).
      destruct (merge_grades db [] instances grades next1) as [[result|e1] next2] eqn:Hm;
        simpl.
      * destruct EvalView__score_context as [sc|e2] eqn:Hsc; simpl; [discriminate|].
        intros [= <-]. apply EvalView__score_context_raise in Hsc as [_ ->]. auto.
      * intros [= <-]. apply merge_grades_raise in Hm as [-> | ->]; auto.
    + intros [= <-]. revert Hgrades. unfold Grade_filter_house_role.
      destruct (role_object (request_user request)) as [[h|r]|]; try discriminate.
      intros [= <-]. auto.
  - intros [= <-]. auto.
Qed.

Lemma EvalView_post_raises db request hid e db' :
  EvalView_post request hid db = (Raise e, db') ->
  (request_is_ajax request = false ∧ e = PermissionDenied)
  ∨ (House_filter_id db hid = [] ∧ e = Http404)
  ∨ e = MultipleObjectsReturned ∨ e = MultiValueDictKeyError
  ∨ e = ValueError ∨ e = DoesNotExist ∨ e = IntegrityError
  ∨ e = OverflowError.
Proof.
  unfold EvalView_post.
  destruct (request_is_ajax request); simpl;
    [|cbv beta delta [throw]; intros [= <- _]; by left].
  unfold bind, read, lift, get_object_or_404, POST_getitem, Category_get_id, qs_get.
  destruct (House_filter_id db hid) as [|house [|house2 houses]];
    try (intros [= <- _]; by auto 9).
  destruct (request_POST request !! "category") as [id|]; [|intros [= <- _]; by auto 9].
  destruct (request_POST request !! "score") as [score|]; [|intros [= <- _]; by auto 9].
  destruct (py_int id) as [cid|]; [|intros [= <- _]; by auto 9].
  destruct (Category_filter_id db cid) as [|category [|category2 cats]];
    try (intros [= <- _]; by auto 9).
  destruct (py_int score) as [v|]; [|intros [= <- _]; by auto 9].
  destruct (Homebuyer_first _) as [hb|]; [|intros [= <- _]; by auto 9].
  destruct (Grade_update_or_create (homebuyer_id hb) (category_id category)
              (house_id house) v db) as [[[g created]|e'] db1] eqn:Hrun.
  - unfold ret. discriminate.
  - intros [= <- _].
    apply Grade_update_or_create_raise in Hrun as [_ [->|[-> _]]]; auto 9.
Qed.

(** X: through its dispatch the evaluation view never answers [Http404],
    whatever the request, the house key and the database: a key that no
    house has is stopped by the permission check, and behind the check a
    house with the key exists. *)
Theorem EvalView_dispatch_never_404 request hid db :
  (EvalView_dispatch request hid db).1 ≠ Raise Http404.
Proof.
  destruct (EvalView_dispatch_cases request hid db)
    as [[Hadmits Hrun]|[[H _]|[H|[H|H]]]]; try (by rewrite H).
  rewrite Hrun.
  destruct Hadmits as (_ & h & couple & house & _ & _ & Hin & Hid & _).
  assert (House_filter_id db hid ≠ []) as Hexists.
  { intros Hnone.
    assert (house ∈ House_filter_id db hid) as Hhouse
      by (apply list_elem_of_filter; done).
    rewrite Hnone in Hhouse. by apply elem_of_nil in Hhouse. }
  unfold View_dispatch. destruct (request_method request); simpl; [| |done].
  - intros H404. apply EvalView_get_raise in H404 as [[? _]|[?|[?|?]]]; done.
  - destruct (EvalView_post request hid db) as [[response|e] db'] eqn:Hpost; [done|].
    simpl. intros [= ->].
    apply EvalView_post_raises in Hpost as [[_ ?]|[[? _]|[?|[?|[?|[?|[?|?]]]]]]]; done.
Qed.


(** X: the score context raises exactly when the choice set is empty, and
    then it is the [ValueError] of [min]. *)
Theorem EvalView__score_context_empty e :
  EvalView__score_context = Raise e <-> score_field_choices = [] ∧ e = ValueError.
Proof.
  split; [apply EvalView__score_context_raise|].
  intros [Hnil ->]. unfold EvalView__score_context. rewrite Hnil.
  unfold py_dict, dict_keys. simpl. by rewrite map_to_list_empty.
Qed.

(** X: when a choice value occurs more than once in the choice set, the
    label the score context shows for it is the label of its last
    occurrence. *)
Theorem EvalView__score_context_last_label sc earlier later k label :
  score_field_choices = earlier ++ (k, label) :: later ->
  k ∉ later.*1 ->
  EvalView__score_context = Return sc ->
  (min_score sc = k -> min_choice sc = label)
  ∧ (max_score sc = k -> max_choice sc = label).
Proof.
  intros Hsplit Hlast Hsc.
  assert (score_field_choices ≠ []) as Hne
    by (rewrite Hsplit; by destruct earlier).
  destruct (EvalView__score_context_returns Hne)
    as (sc' & Hsc' & _ & _ & Hlo & Hhi & _).
  rewrite Hsc in Hsc'. injection Hsc' as <-.
  pose proof (py_dict_last_wins earlier later k label Hlast) as Hk.
  rewrite <- Hsplit in Hk.
  split; intros <-; congruence.
Qed.

(** X: for a Homebuyer, a house that exists once, a non-empty choice set and
    grades whose categories exist, the read handler renders, and the list it
    renders has one pair per category of the caller's couples, in their
    order, each with the score of the caller's first grade for the category
    and the house when the category key is from -5 to 256, and with [None]
    otherwise. *)
Theorem EvalView_get_renders db request hid h house :
  role_object (request_user request) = Some (RoleHomebuyer h) ->
  House_filter_id db hid = [house] ->
  score_field_choices ≠ [] ->
  grade_categories_resolve db ->
  exists sc,
    EvalView_get db request hid
    = Return
        (render "core/houseEval.html"
           (HouseEvalContext
              (Couple_filter_homebuyer__user db (user_id (request_user request)))
              house
              ((fun c =>
                  (c, merged_score
                        (Grade_filter_house_homebuyer db (house_id house) (homebuyer_id h))
                        (category_id c)))
                 <$> Category_filter_couple db
                       (Couple_filter_homebuyer__user db
                          (user_id (request_user request))))
              sc)).
Proof.
  intros Hrole Hhouse Hchoices Hres.
  destruct (EvalView_get_returns db request hid h house Hrole Hhouse Hchoices Hres)
    as (graded & sc & Hget).
  exists sc. rewrite Hget.
  apply EvalView_get_graded in Hget as (grades0 & Hgrades & -> & _).
  rewrite Hrole in Hgrades. simpl in Hgrades. by injection Hgrades as <-.
Qed.


(** *** More on the home view *)

(** X: the gate every subclassed view inherits: whatever the allowed types,
    the permission check and the handlers, the dispatch runs the handler of
    the request method only for a logged-in user whose role object has an
    allowed type and passes the check; otherwise the database is untouched,
    and the answer is the redirect to the login page exactly for a user
    who is not logged in. *)
Theorem BaseView_dispatch_gate allowed check get post request db out db' :
  BaseView_dispatch allowed check get post request db = (out, db') ->
  (is_authenticated (request_user request) = true
   ∧ (exists role,
        role_object (request_user request) = Some role
        ∧ role_type role ∈ allowed
        ∧ check db request role = Return true)
   ∧ View_dispatch get post request db = (out, db'))
  ∨ (db' = db
     ∧ ((is_authenticated (request_user request) = false
         ∧ out = Return (redirect "login"))
        ∨ (is_authenticated (request_user request) = true
           ∧ exists e, out = Raise e))).
Proof.
  unfold BaseView_dispatch.
  destruct (is_authenticated (request_user request)); simpl.
  - destruct (role_object (request_user request)) as [role|].
    + case_bool_decide as Hallowed.
      * unfold bind, read, lift.
        destruct (check db request role) as [[]|e] eqn:Hcheck.
        -- intros Hrun. left. split; [done|]. split; [|done]. by exists role.
        -- intros [= <- <-]. right. split; [done|]. right. split; [done|]. by eexists.
        -- intros [= <- <-]. right. split; [done|]. right. split; [done|]. by eexists.
      * intros [= <- <-]. right. split; [done|]. right. split; [done|]. by eexists.
    + intros [= <- <-]. right. split; [done|]. right. split; [done|]. by eexists.
  - intros [= <- <-]. right. split; [done|]. by left.
Qed.

(** X: a POST to the home view by a caller who is in no couple, with a form
    that is not valid, answers what GET answers and writes nothing. *)
Theorem HomeView_post_invalid_form db request :
  Couple_filter_homebuyer__user db (user_id (request_user request)) = [] ->
  InviteHomebuyerForm_cleaned_data db (request_POST request) = None ->
  HomeView_post request db = (HomeView_get db request, db).
Proof.
  intros Hc Hform. unfold HomeView_post, HomeView_get, bind, read.
  rewrite Hc, Hform. simpl.
  by destruct (truthy (Realtor_filter_user db _)).
Qed.

Lemma transaction_atomic_return {A : Type} (block : Stm DB A) db a db1 :
  transaction_atomic block db = (Return a, db1) -> block db = (Return a, db1).
Proof.
  unfold transaction_atomic. destruct (block db) as [[a'|e] db2]; congruence.
Qed.

(** The rows of an invitation. *)
Lemma invitation_block_return request uid first_email second_email db a db1 :
  (let* db0 := read in
   let* user_realtor := lift (qs_get (Realtor_filter_user db0 uid)) in
   let* pending_couple := PendingCouple_create user_realtor in
   let* _ := HomeView__invite_homebuyer request pending_couple first_email in
   HomeView__invite_homebuyer request pending_couple second_email) db
  = (Return a, db1) ->
  exists r,
    qs_get (Realtor_filter_user db uid) = Return r
    ∧ let pc := {| pending_couple_id := next_id (pending_couple_id <$> pending_couples db);
                   pending_couple_realtor := realtor_id r |} in
      let h1 := {| pending_homebuyer_id :=
                     next_id (pending_homebuyer_id <$> pending_homebuyers db);
                   pending_homebuyer_email := first_email;
                   pending_homebuyer_pending_couple := pending_couple_id pc |} in
      let h2 := {| pending_homebuyer_id :=
                     next_id (pending_homebuyer_id <$> (pending_homebuyers db ++ [h1]));
                   pending_homebuyer_email := second_email;
                   pending_homebuyer_pending_couple := pending_couple_id pc |} in
      db1 = set_pending_homebuyers
              (set_pending_couples db (pending_couples db ++ [pc]))
              (pending_homebuyers db ++ [h1; h2]).
Proof.
  unfold bind, read, lift.
  destruct (qs_get (Realtor_filter_user db uid)) as [r|e]; [|discriminate].
  unfold PendingCouple_create, HomeView__invite_homebuyer, bind, read, write, ret.
  simpl.
  destruct (PendingHomebuyer_insert_error _ _) as [e|]; [discriminate|].
  destruct (send_email_invite _ request) as [e|]; [discriminate|].
  simpl.
  destruct (PendingHomebuyer_insert_error _ _) as [e|]; [discriminate|].
  destruct (send_email_invite _ request) as [e|]; [discriminate|].
  simpl. intros Hdb. apply (f_equal snd) in Hdb. simpl in Hdb. rewrite <- Hdb.
  exists r. split; [done|]. simpl.
  unfold set_pending_homebuyers, set_pending_couples. simpl.
  by rewrite <- app_assoc.
Qed.

(** X: a POST to the home view is all or nothing on every path: it leaves
    the database as it found it, or it returns a response and has added
    exactly one pending couple and exactly two pending homebuyers linked to
    it, and nothing else; in particular the database is unchanged whenever
    it raises. *)
Theorem HomeView_post_all_or_nothing request db out db' :
  HomeView_post request db = (out, db') ->
  db' = db
  ∨ exists response pc h1 h2,
      out = Return response
      ∧ db' = set_pending_homebuyers
                (set_pending_couples db (pending_couples db ++ [pc]))
                (pending_homebuyers db ++ [h1; h2])
      ∧ pending_homebuyer_pending_couple h1 = pending_couple_id pc
      ∧ pending_homebuyer_pending_couple h2 = pending_couple_id pc.
Proof.
  destruct out as [response|e]; [|intros H; left; by apply HomeView_post_raise_unchanged in H].
  unfold HomeView_post, bind, read.
  destruct (truthy (Couple_filter_homebuyer__user db _)); [discriminate|].
  destruct (truthy (Realtor_filter_user db _)); [|discriminate].
  destruct (InviteHomebuyerForm_cleaned_data db (request_POST request))
    as [[first_email second_email]|].
  - destruct (transaction_atomic _ db) as [[[]|e] db1] eqn:Hblock; [|discriminate].
    unfold ret. simpl. intros H. apply (f_equal snd) in H. simpl in H. subst db'.
    right. apply transaction_atomic_return in Hblock.
    apply (invitation_block_return request (user_id (request_user request))
             first_email second_email db () db1) in Hblock as (r & _ & ->).
    by eexists response, _, _, _.
  - unfold ret. simpl. intros H. apply (f_equal snd) in H. simpl in H. by left.
Qed.

Lemma HomeView_post_invited db request r first_email second_email response db' :
  Couple_filter_homebuyer__user db (user_id (request_user request)) = [] ->
  Realtor_filter_user db (user_id (request_user request)) = [r] ->
  InviteHomebuyerForm_cleaned_data db (request_POST request)
    = Some (first_email, second_email) ->
  HomeView_post request db = (Return response, db') ->
  let pc := {| pending_couple_id := next_id (pending_couple_id <$> pending_couples db);
               pending_couple_realtor := realtor_id r |} in
  let h1 := {| pending_homebuyer_id :=
                 next_id (pending_homebuyer_id <$> pending_homebuyers db);
               pending_homebuyer_email := first_email;
               pending_homebuyer_pending_couple := pending_couple_id pc |} in
  let h2 := {| pending_homebuyer_id :=
                 next_id (pending_homebuyer_id <$> (pending_homebuyers db ++ [h1]));
               pending_homebuyer_email := second_email;
               pending_homebuyer_pending_couple := pending_couple_id pc |} in
  db' = set_pending_homebuyers
          (set_pending_couples db (pending_couples db ++ [pc]))
          (pending_homebuyers db ++ [h1; h2])
  ∧ response = render "core/realtorHome.html"
                 (RealtorHomeContext (realtor_couple_data db' [r]) [] [r]).
Proof.
  intros Hc Hr Hform Hpost pc h1 h2. split.
  - revert Hpost. unfold HomeView_post, bind, read. rewrite Hc, Hr, Hform. simpl.
    destruct (transaction_atomic _ db) as [[[]|e] db1] eqn:Hblock; [|discriminate].
    unfold ret. simpl. intros H. apply (f_equal snd) in H. simpl in H. subst db'.
    apply transaction_atomic_return in Hblock.
    apply (invitation_block_return request (user_id (request_user request))
             first_email second_email db () db1) in Hblock as (r' & Hr' & ->).
    rewrite Hr in Hr'. simpl in Hr'. by injection Hr' as <-.
  - pose proof (HomeView_post_realtor_render db request response db' Hc) as H.
    simpl in H. rewrite Hr in H. by apply H.
Qed.

(** X: the page a successful invitation renders is the page GET rendered
    before it with one entry added at the end: the new pending couple, of the
    caller's realtor record, with its two pending homebuyers, one per email
    in order, flagged as pending.  The pending homebuyers already stored are
    assumed to point to stored pending couples. *)
Theorem HomeView_post_shows_invitation db request r first_email second_email
    response db' :
  Couple_filter_homebuyer__user db (user_id (request_user request)) = [] ->
  Realtor_filter_user db (user_id (request_user request)) = [r] ->
  InviteHomebuyerForm_cleaned_data db (request_POST request)
    = Some (first_email, second_email) ->
  pending_homebuyers_linked db ->
  HomeView_post request db = (Return response, db') ->
  exists pc h1 h2,
    HomeView_get db request
    = Return (render "core/realtorHome.html"
                (RealtorHomeContext (realtor_couple_data db [r]) [] [r]))
    ∧ response
      = render "core/realtorHome.html"
          (RealtorHomeContext
             (realtor_couple_data db [r] ++ [(inr pc, inr [h1; h2], true)]) [] [r])
    ∧ pending_couple_realtor pc = realtor_id r
    ∧ pending_homebuyer_email h1 = first_email
    ∧ pending_homebuyer_email h2 = second_email
    ∧ pending_couples db' = pending_couples db ++ [pc]
    ∧ pending_homebuyers db' = pending_homebuyers db ++ [h1; h2].
Proof.
  intros Hc Hr Hform Hlinked Hpost.
  destruct (HomeView_post_invited db request r first_email second_email response db'
              Hc Hr Hform Hpost) as [Hdb ->].
  set (pc := {| pending_couple_id := next_id (pending_couple_id <$> pending_couples db);
                pending_couple_realtor := realtor_id r |}) in *.
  set (h1 := {| pending_homebuyer_id :=
                  next_id (pending_homebuyer_id <$> pending_homebuyers db);
                pending_homebuyer_email := first_email;
                pending_homebuyer_pending_couple := pending_couple_id pc |}) in *.
  set (h2 := {| pending_homebuyer_id :=
                  next_id (pending_homebuyer_id <$> (pending_homebuyers db ++ [h1]));
                pending_homebuyer_email := second_email;
                pending_homebuyer_pending_couple := pending_couple_id pc |}) in *.
  exists pc, h1, h2.
  split.
  { pose proof (HomeView_get_realtor_branch db request Hc) as Hget.
    simpl in Hget. rewrite Hr in Hget. by apply Hget. }
  split; [|by rewrite Hdb].
  do 2 f_equal. rewrite Hdb. unfold realtor_couple_data.
  rewrite <- app_assoc. f_equal.
  assert (pending_couple_id pc ∉ pending_couple_id <$> pending_couples db) as Hfresh
    by apply next_id_fresh.
  assert (forall l,
            (forall h, h ∈ l -> pending_homebuyer_pending_couple h
                                ∈ pending_couple_id <$> pending_couples db) ->
            filter (fun h => pending_homebuyer_pending_couple h = pending_couple_id pc) l
            = []) as Hold.
  { intros l Hl. apply filter_nil_iff. intros h Hh E. apply Hfresh.
    rewrite <- E. by apply Hl. }
  unfold PendingCouple_filter_realtor. simpl.
  rewrite filter_app, filter_cons, decide_True, filter_nil by (simpl; left).
  rewrite fmap_app. f_equal.
  - apply list_fmap_ext. intros i p Hp. apply list_elem_of_lookup_2 in Hp.
    apply list_elem_of_filter in Hp as [_ Hp].
    unfold pending_entry, PendingHomebuyer_filter_pending_couple. simpl.
    rewrite filter_app.
    assert (filter (fun h => pending_homebuyer_pending_couple h = pending_couple_id p)
              [h1; h2] = []) as ->.
    { apply filter_nil_iff. intros h Hh E. apply Hfresh.
      assert (pending_homebuyer_pending_couple h = pending_couple_id pc) as Elink.
      { apply elem_of_cons in Hh as [->|Hh]; [done|].
        apply list_elem_of_singleton in Hh as ->. done. }
      rewrite <- Elink, E. by apply list_elem_of_fmap_2. }
    by rewrite app_nil_r.
  - rewrite list_fmap_singleton.
    unfold pending_entry, PendingHomebuyer_filter_pending_couple.
    unfold set_pending_homebuyers. cbn [pending_homebuyers].
    rewrite filter_app, (Hold _ Hlinked).
    rewrite !filter_cons, !decide_True by done. by rewrite filter_nil.
Qed.

(** A score the database cannot hold: the write raises after the lookups
    and nothing is stored. *)
Lemma EvalView_post_overflow db request hid house category hb id cid score v :
  request_is_ajax request = true ->
  House_filter_id db hid = [house] ->
  request_POST request !! "category" = Some id ->
  request_POST request !! "score" = Some score ->
  py_int id = Some cid ->
  Category_filter_id db cid = [category] ->
  py_int score = Some v ->
  Homebuyer_first (Homebuyer_filter_user_id db (user_id (request_user request)))
    = Some hb ->
  (length (Grade_filter db (homebuyer_id hb) (category_id category) (house_id house))
     ≤ 1)%nat ->
  Grade_score_storable v = false ->
  EvalView_post request hid db = (Raise OverflowError, db).
Proof.
  intros Hajax Hhouse Hid Hscore Hcid Hcat Hv Hhb Hlen Hstorable.
  rewrite (EvalView_post_run db request hid house category hb id cid score v);
    try done.
  revert Hlen. unfold Grade_update_or_create, bind, read.
  destruct (Grade_filter db _ _ _) as [|old [|g2 rest]]; simpl; [| |lia]; intros _.
  - unfold Grade_create. by rewrite Hstorable.
  - unfold Grade_save. simpl. by rewrite Hstorable.
Qed.

End Views.

(** ** The handlers on the sample database *)

(** C1: alice has graded category 257 for house 5 with score 4, and the read
    path pairs that category with [None]: the keys 257 of the category row and
    of the grade's category are two integer objects, which [is] tells apart.
    The category with key 3 is paired with its score. *)
Theorem EvalView_get_misses_grade :
  Grade_filter sample_db 1 257 5
  = [ {| grade_id := 1; grade_homebuyer := 1; grade_category := 257;
         grade_house := 5; grade_score := 4 |} ]
  ∧ exists couple house score_context,
      EvalView_get five_point_choices 3 sample_db alice_get 5
      = Return (render "core/houseEval.html"
                  (HouseEvalContext couple house
                     [ ({| category_id := 3; category_couple := 1 |}, Some 2%Z);
                       ({| category_id := 257; category_couple := 1 |}, None);
                       ({| category_id := 4; category_couple := 1 |}, None) ]
                     score_context)).
Proof. split; [reflexivity|]. eexists _, _, _. vm_compute. reflexivity. Qed.

(** C10: alice belongs to a couple.  GET renders her the homebuyer view; POST
    takes the same branch and raises [UnboundLocalError] in place of the
    view. *)
Theorem HomeView_post_homebuyer_raises :
  Couple_filter_homebuyer__user sample_db 20 = [ {| couple_id := 1; couple_realtor := 1 |} ]
  ∧ HomeView_get sample_db alice_get
    = Return (render "core/homebuyerHome.html"
                (HomebuyerHomeContext [ {| couple_id := 1; couple_realtor := 1 |} ]
                   [ {| house_id := 5; house_couple := 1 |} ]))
  ∧ HomeView_post two_emails_form no_insert_error email_delivered alice_home_post
      sample_db
    = (Raise UnboundLocalError, sample_db).
Proof. repeat split. Qed.

(** C7, the claim as stated fails: dave's role is Homebuyer, no couple holds
    him, and GET raises the 'neither' exception, at the handler and through
    the dispatch. *)
Lemma HomeView_get_homebuyer_without_couple :
  role_object (request_user dave_get) = Some (RoleHomebuyer dave)
  ∧ dave ∈ homebuyers sample_db
  ∧ Couple_filter_homebuyer__user sample_db (user_id (request_user dave_get)) = []
  ∧ HomeView_get sample_db dave_get
    = Raise (Exception "Neither a Homebuyer nor a Realtor")
  ∧ HomeView_dispatch two_emails_form no_insert_error email_delivered dave_get sample_db
    = (Raise (Exception "Neither a Homebuyer nor a Realtor"), sample_db).
Proof.
  split; [reflexivity|]. split; [|by repeat split].
  unfold sample_db. simpl. repeat (first [left | right]).
Qed.


(** The second invitation is refused by the database: the pending couple and
    the first pending homebuyer are gone with it. *)
Example HomeView_post_second_insert_refused :
  HomeView_post two_emails_form (refuse_email "b@x.org") email_delivered rita_invites
    sample_db
  = (Raise IntegrityError, sample_db).
Proof. reflexivity. Qed.

(** The same submission without the transaction block would leave the
    pending couple and the first pending homebuyer behind. *)
Example invitation_steps_without_atomic :
  let block :=
    let* pending_couple := PendingCouple_create rita in
    let* _ := HomeView__invite_homebuyer (refuse_email "b@x.org") email_delivered
                rita_invites pending_couple "a@x.org" in
    HomeView__invite_homebuyer (refuse_email "b@x.org") email_delivered
      rita_invites pending_couple "b@x.org" in
  (block sample_db).1 = Raise IntegrityError
  ∧ length (pending_couples (block sample_db).2) = 2%nat
  ∧ length (pending_homebuyers (block sample_db).2) = 2%nat
  ∧ (transaction_atomic block sample_db).2 = sample_db.
Proof. repeat split. Qed.

(** ** Instances of the theorems on the sample database *)

Lemma HomeView_realtor_couple_data_witness :
  exists data,
    HomeView_get sample_db rita_get
    = Return (render "core/realtorHome.html" (RealtorHomeContext data [] [rita]))
    ∧ data.*2 = [false; false; true].
Proof.
  destruct (HomeView_realtor_couple_data two_emails_form no_insert_error
              email_delivered sample_db rita_get) as [Hget _].
  - reflexivity.
  - discriminate.
  - eexists. split; [exact Hget|]. reflexivity.
Defined.

Lemma HomeView_get_resolution_witness :
  Couple_filter_realtor sample_db [ravi] = []
  ∧ exists context,
      HomeView_get sample_db ravi_get = Return (render "core/realtorHome.html" context).
Proof.
  split; [reflexivity|].
  destruct (HomeView_get_resolution sample_db ravi_get) as (_ & Hrealtor & _).
  apply Hrealtor; [reflexivity | discriminate].
Defined.

Lemma EvalView_foreign_house_denied_witness :
  EvalView_dispatch decimal_int sqlite_integer five_point_choices 3 (alice_grades "5" true) 6 sample_db
  = (Raise PermissionDenied, sample_db).
Proof.
  destruct (EvalView_foreign_house_denied decimal_int sqlite_integer five_point_choices 3 sample_db
              (alice_grades "5" true) alice
              {| couple_id := 1; couple_realtor := 1 |}
              {| house_id := 6; house_couple := 2 |}) as [Hdenied _].
  - reflexivity.
  - reflexivity.
  - reflexivity.
  - apply (bool_decide_unpack _). vm_compute. exact I.
  - right. left.
  - discriminate.
  - exact Hdenied.
Defined.


Lemma EvalView_post_not_ajax_witness :
  EvalView_post decimal_int sqlite_integer (alice_grades "5" false) 5 sample_db
  = (Raise PermissionDenied, sample_db).
Proof. apply EvalView_post_not_ajax. reflexivity. Defined.

Lemma EvalView__score_context_spec_witness :
  exists sc,
    EvalView__score_context five_point_choices 3 = Return sc
    ∧ (min_score sc, min_choice sc) ∈ five_point_choices
    ∧ (max_score sc, max_choice sc) ∈ five_point_choices
    ∧ default_score sc = 3%Z.
Proof.
  destruct (EvalView__score_context_spec five_point_choices 3)
    as (sc & Hrun & _ & _ & _ & _ & _ & _ & Hlo & Hhi & Hdefault & _).
  - discriminate.
  - exists sc. repeat split; assumption.
Defined.

Lemma EvalView_post_twice_witness :
  exists db1 db2 g,
    EvalView_post decimal_int sqlite_integer (alice_grades "5" true) 5 sample_db
    = (Return (acknowledgment "3" "5"), db1)
    ∧ EvalView_post decimal_int sqlite_integer (alice_grades "1" true) 5 db1
      = (Return (acknowledgment "3" "1"), db2)
    ∧ Grade_filter db2 1 3 5 = [g]
    ∧ grade_score g = 1%Z.
Proof.
  destruct (EvalView_post_twice decimal_int sqlite_integer sample_db
              (alice_grades "5" true) (alice_grades "1" true) 5
              {| house_id := 5; house_couple := 1 |}
              {| category_id := 3; category_couple := 1 |}
              alice "3" 3 "5" "1" 5 1)
    as (db1 & db2 & g1 & g2 & Hfirst & Hsecond & _ & _ & _ & Hone & Hlatest & _).
  1-15: reflexivity.
  - apply (bool_decide_unpack _). vm_compute. exact I.
  - simpl. lia.
  - exists db1, db2, g2. repeat split; try assumption.
    rewrite Hlatest. reflexivity.
Defined.

Lemma HomeView_post_invitation_witness :
  exists response db',
    HomeView_post two_emails_form no_insert_error email_delivered rita_invites sample_db
    = (Return response, db')
    ∧ length (pending_couples db') = 2%nat
    ∧ length (pending_homebuyers db') = 3%nat.
Proof.
  destruct (HomeView_post_invitation two_emails_form no_insert_error email_delivered
              sample_db rita_invites rita "a@x.org" "b@x.org" eq_refl eq_refl eq_refl)
    as (_ & _ & Hrun).
  simpl in Hrun.
  eexists _, _. split; [exact Hrun|]. split; reflexivity.
Defined.

(** ** Facts about the sample database *)

Lemma sample_db_grade_keys : NoDup (grade_id <$> grades sample_db).
Proof. apply (bool_decide_unpack _). vm_compute. exact I. Qed.

Lemma sample_db_resolves : grade_categories_resolve sample_db.
Proof.
  intros g Hg. simpl in Hg.
  apply elem_of_cons in Hg as [->|Hg]; [by eexists|].
  apply list_elem_of_singleton in Hg as ->. by eexists.
Qed.

Lemma sample_db_unique : unique_per_triple sample_db.
Proof.
  intros hb cat house. unfold Grade_filter. simpl.
  rewrite !filter_cons, filter_nil. simpl.
  repeat case_decide; simpl; lia.
Qed.

Lemma sample_db_linked : pending_homebuyers_linked sample_db.
Proof.
  intros h Hh. simpl in Hh. apply list_elem_of_singleton in Hh as ->. simpl. left.
Qed.

(** ** Further instances on the sample database *)

Lemma BaseView_dispatch_gate_witness :
  exists role,
    role_object (request_user alice_get) = Some role
    ∧ role_type role ∈ _ALL_TYPES_ALLOWED
    ∧ EvalView__permission_check 5 sample_db alice_get role = Return true.
Proof.
  pose (run := EvalView_dispatch decimal_int sqlite_integer five_point_choices 3 alice_get 5 sample_db).
  destruct (BaseView_dispatch_gate _ALL_TYPES_ALLOWED (EvalView__permission_check 5)
              (fun db => (EvalView_get five_point_choices 3 db alice_get 5, db))
              (EvalView_post decimal_int sqlite_integer alice_get 5) alice_get sample_db
              run.1 run.2)
    as [(_ & Hrole & _)|(_ & [[Hanon _]|[_ [e He]]])].
  - reflexivity.
  - exact Hrole.
  - discriminate Hanon.
  - vm_compute in He. discriminate He.
Defined.

Lemma EvalView_dispatch_returns_behind_gate_witness :
  EvalView_admits sample_db alice_get 5.
Proof.
  eapply (EvalView_dispatch_returns_behind_gate decimal_int sqlite_integer five_point_choices 3
            alice_get 5 sample_db).
  - reflexivity.
  - vm_compute. reflexivity.
Defined.

Lemma EvalView_dispatch_writes_behind_gate_witness :
  EvalView_admits sample_db (alice_grades "5" true) 5
  ∧ request_method (alice_grades "5" true) = POST
  ∧ request_is_ajax (alice_grades "5" true) = true.
Proof.
  apply (EvalView_dispatch_writes_behind_gate decimal_int sqlite_integer five_point_choices 3).
  intros H. apply (f_equal grades) in H. vm_compute in H. discriminate H.
Defined.


Lemma EvalView_get_renders_witness :
  exists couple house sc,
    EvalView_get five_point_choices 3 sample_db alice_get 5
    = Return (render "core/houseEval.html"
                (HouseEvalContext couple house
                   [ ({| category_id := 3; category_couple := 1 |}, Some 2%Z);
                     ({| category_id := 257; category_couple := 1 |}, None);
                     ({| category_id := 4; category_couple := 1 |}, None) ]
                   sc)).
Proof.
  destruct (EvalView_get_renders five_point_choices 3 sample_db alice_get 5 alice
              {| house_id := 5; house_couple := 1 |}) as [sc Hget].
  - reflexivity.
  - reflexivity.
  - discriminate.
  - exact sample_db_resolves.
  - eexists _, _, sc. exact Hget.
Defined.

Lemma EvalView__score_context_empty_witness :
  EvalView__score_context [] 3 = Raise ValueError.
Proof.
  apply (EvalView__score_context_empty [] 3 ValueError). split; reflexivity.
Defined.

Lemma EvalView__score_context_last_label_witness :
  exists sc,
    EvalView__score_context relabelled_choices 3 = Return sc
    ∧ min_score sc = 1%Z
    ∧ min_choice sc = "Bad".
Proof.
  destruct (EvalView__score_context relabelled_choices 3) as [sc|e] eqn:E.
  - exists sc. split; [reflexivity|].
    assert (min_score sc = 1%Z) as Hmin
      by (vm_compute in E; injection E as <-; reflexivity).
    split; [exact Hmin|].
    apply (EvalView__score_context_last_label relabelled_choices 3 sc
             [(1, "Poor"); (2, "Fair")]%Z [] 1%Z "Bad").
    + reflexivity.
    + apply not_elem_of_nil.
    + exact E.
    + exact Hmin.
  - vm_compute in E. discriminate E.
Defined.

Lemma EvalView_post_raise_unchanged_witness :
  (EvalView_post decimal_int sqlite_integer (alice_grades "high" true) 5 sample_db).2 = sample_db.
Proof.
  apply (EvalView_post_raise_unchanged decimal_int sqlite_integer sample_db
           (alice_grades "high" true) 5 ValueError).
  reflexivity.
Defined.


Lemma EvalView_post_frame_witness :
  Grade_filter (EvalView_post decimal_int sqlite_integer (alice_grades "5" true) 5 sample_db).2 1 257 5
  = Grade_filter sample_db 1 257 5.
Proof.
  pose (run := EvalView_post decimal_int sqlite_integer (alice_grades "5" true) 5 sample_db).
  destruct (EvalView_post_frame decimal_int sqlite_integer sample_db (alice_grades "5" true) 5
              (acknowledgment "3" "5") run.2)
    as (_ & _ & _ & _ & _ & _ & _ & _ & hb & category & house & id
        & _ & _ & Hid & Hkey & _ & Hframe).
  - exact sample_db_grade_keys.
  - reflexivity.
  - apply Hframe. intros [= _ Hcat _].
    vm_compute in Hid. injection Hid as <-.
    assert (Some 3%Z = Some (category_id category)) as E by exact Hkey.
    injection E as E. rewrite <- E in Hcat. discriminate Hcat.
Defined.

Lemma EvalView_post_keeps_unique_witness :
  unique_per_triple (EvalView_post decimal_int sqlite_integer (alice_grades "5" true) 5 sample_db).2.
Proof.
  apply (EvalView_post_keeps_unique decimal_int sqlite_integer sample_db (alice_grades "5" true) 5
           (acknowledgment "3" "5")).
  - exact sample_db_grade_keys.
  - exact sample_db_unique.
  - reflexivity.
Defined.

Lemma EvalView_post_idempotent_witness :
  let db1 := (EvalView_post decimal_int sqlite_integer (alice_grades "5" true) 5 sample_db).2 in
  EvalView_post decimal_int sqlite_integer (alice_grades "5" true) 5 db1
  = (Return (acknowledgment "3" "5"), db1).
Proof.
  apply (EvalView_post_idempotent decimal_int sqlite_integer sample_db (alice_grades "5" true) 5).
  - exact sample_db_grade_keys.
  - reflexivity.
Defined.

Lemma EvalView_post_then_get_witness :
  exists couple house graded sc,
    EvalView_get five_point_choices 3
      (EvalView_post decimal_int sqlite_integer (alice_grades "5" true) 5 sample_db).2 alice_get 5
    = Return (render "core/houseEval.html" (HouseEvalContext couple house graded sc))
    ∧ ({| category_id := 3; category_couple := 1 |}, Some 5%Z) ∈ graded.
Proof.
  apply (EvalView_post_then_get decimal_int sqlite_integer five_point_choices 3 sample_db
           (alice_grades "5" true) alice_get 5 (acknowledgment "3" "5")
           (EvalView_post decimal_int sqlite_integer (alice_grades "5" true) 5 sample_db).2
           alice {| category_id := 3; category_couple := 1 |} "3" "5" 5).
  - exact sample_db_grade_keys.
  - exact sample_db_resolves.
  - discriminate.
  - reflexivity.
  - reflexivity.
  - reflexivity.
  - reflexivity.
  - reflexivity.
  - reflexivity.
  - reflexivity.
  - reflexivity.
  - simpl. lia.
  - vm_compute. left.
Defined.

Lemma HomeView_post_all_or_nothing_witness :
  length (pending_homebuyers
            (HomeView_post two_emails_form (refuse_email "b@x.org") email_delivered
               rita_invites sample_db).2) ≠ 2%nat.
Proof.
  pose (run := HomeView_post two_emails_form (refuse_email "b@x.org") email_delivered
                 rita_invites sample_db).
  destruct (HomeView_post_all_or_nothing two_emails_form (refuse_email "b@x.org")
              email_delivered rita_invites sample_db run.1 run.2)
    as [Hsame|(response & pc & h1 & h2 & _ & Hall & _)].
  - reflexivity.
  - fold run. rewrite Hsame. simpl. lia.
  - fold run. rewrite Hall. simpl. lia.
Defined.

Lemma HomeView_post_invalid_form_witness :
  HomeView_post two_emails_form no_insert_error email_delivered rita_empty_post sample_db
  = (HomeView_get sample_db rita_empty_post, sample_db).
Proof.
  apply HomeView_post_invalid_form.
  - reflexivity.
  - reflexivity.
Defined.

Lemma HomeView_post_shows_invitation_witness :
  exists response pc h1 h2,
    (HomeView_post two_emails_form no_insert_error email_delivered rita_invites
       sample_db).1 = Return response
    ∧ response
      = render "core/realtorHome.html"
          (RealtorHomeContext
             (realtor_couple_data sample_db [rita] ++ [(inr pc, inr [h1; h2], true)])
             [] [rita])
    ∧ pending_homebuyer_email h1 = "a@x.org"
    ∧ pending_homebuyer_email h2 = "b@x.org".
Proof.
  pose (run := HomeView_post two_emails_form no_insert_error email_delivered
                 rita_invites sample_db).
  assert (exists response, run = (Return response, run.2)) as [response Hrun]
    by (eexists; vm_compute; reflexivity).
  destruct (HomeView_post_shows_invitation two_emails_form no_insert_error
              email_delivered sample_db rita_invites rita "a@x.org" "b@x.org"
              response run.2)
    as (pc & h1 & h2 & _ & Hpage & _ & He1 & He2 & _).
  - reflexivity.
  - reflexivity.
  - reflexivity.
  - exact sample_db_linked.
  - exact Hrun.
  - exists response, pc, h1, h2. fold run. rewrite Hrun. simpl.
    repeat split; assumption.
Defined.

(** A score one past the largest 64-bit integer: the lookups succeed, the
    write raises and alice's grade keeps its score. *)
Example EvalView_post_score_too_large :
  EvalView_post decimal_int sqlite_integer (alice_grades "9223372036854775808" true) 5
    sample_db
  = (Raise OverflowError, sample_db)
  ∧ EvalView_post decimal_int sqlite_integer (alice_grades "9223372036854775807" true) 5
      sample_db
    ≠ (Raise OverflowError, sample_db).
Proof. split; [reflexivity|]. vm_compute. discriminate. Qed.
